(** * pdb-downloader: a shallow embedding of [download_pdb.py]

    The development follows the two components of the program:
    [extract_pdb_info], which derives the (signature, filename) identity
    of a PE image from its first debug-directory entry, and
    [download_pdb], which builds the symbol-store URL and maps the HTTP
    status to an outcome.

    Python values are modelled as follows.
    - [bytes] is a list of [Byte.byte];
    - [str] is a list of Unicode code points (each an [N]);
    - the unsigned integers that [pefile] unpacks are [N], an HTTP status
      is a [Z], string indices are [Z] (with [-1] for "not found");
    - a raised exception is the [Raise] branch of [result];
    - the [entry] of a debug-directory element is [None] or one of the
      structures of [pefile], and reading an attribute that the object
      lacks raises [AttributeError]. *)

From Stdlib Require Import List NArith ZArith Lia Bool.
From Stdlib Require Import Strings.Ascii Strings.String Strings.Byte.
From Stdlib Require Import DecimalString.
Import ListNotations.

(** ** Python strings and bytes *)

Module Py.

Definition char := N.
Definition str := list char.
Definition bytes := list byte.

(** A string literal of the source, as code points. *)
Definition lit (s : string) : str :=
  List.map N_of_ascii (list_ascii_of_string s).

(** A bytes literal of the source ([b'...']). *)
Definition blit (s : string) : bytes := list_byte_of_string s.

Definition chr (a : ascii) : char := N_of_ascii a.

Fixpoint bytes_eqb (x y : bytes) : bool :=
  match x, y with
  | [], [] => true
  | a :: x', c :: y' => Byte.eqb a c && bytes_eqb x' y'
  | _, _ => false
  end.

(** [s.rfind(c)] for a one-character [c]: the highest index at which [c]
    occurs, or [-1]. [rfind_from i s c last] scans [s], whose first
    character has index [i], and remembers the last hit. *)
Fixpoint rfind_from (i : Z) (s : str) (c : char) (last : Z) : Z :=
  match s with
  | [] => last
  | x :: t => rfind_from (i + 1) t c (if N.eqb x c then i else last)
  end.

Definition rfind (s : str) (c : char) : Z := rfind_from 0 s c (-1).

(** [s[i:]]: a negative [i] counts from the end, and the start is
    clamped to the string. *)
Definition slice_from {A : Type} (s : list A) (i : Z) : list A :=
  let start := if (i <? 0)%Z then Z.max 0 (Z.of_nat (List.length s) + i) else i in
  skipn (Z.to_nat start) s.

(** [s[:-1]] *)
Definition drop_last {A : Type} (s : list A) : list A := removelast s.

(** [s.endswith(c)] for a one-character [c]. *)
Fixpoint endswith (s : str) (c : char) : bool :=
  match s with
  | [] => false
  | [x] => N.eqb x c
  | _ :: t => endswith t c
  end.

(** [s[-1]] on bytes: [None] stands for the [IndexError] of an empty
    sequence. *)
Fixpoint last_byte (s : bytes) : option byte :=
  match s with
  | [] => None
  | [x] => Some x
  | _ :: t => last_byte t
  end.

(** *** Hexadecimal formatting *)

Definition hex_digit_upper (d : N) : char :=
  (if d <? 10 then 48 + d else 55 + d)%N.

Definition hex_digit_lower (d : N) : char :=
  (if d <? 10 then 48 + d else 87 + d)%N.

(** The digits of [n] in base 16, most significant first; [fuel] bounds
    the number of digits produced. *)
Fixpoint hex_digits (fuel : nat) (n : N) (acc : str) : str :=
  match fuel with
  | O => acc
  | S f =>
      let acc' := hex_digit_upper (n mod 16) :: acc in
      if (n / 16 =? 0)%N then acc' else hex_digits f (n / 16)%N acc'
  end.

(** ['{:X}'.format(n)] for [n >= 0]. A number of [k] bits has at most
    [k] hexadecimal digits, so the fuel, one more than the binary
    logarithm of [n], is never exhausted (lemma [format_X_spec] below). *)
Definition format_X (n : N) : str :=
  hex_digits (S (N.to_nat (N.log2 n))) n [].

(** ['{:0wX}'.format(n)]: at least [w] characters, padded with zeros on
    the left. *)
Definition format_0X (w : nat) (n : N) : str :=
  let ds := format_X n in
  repeat (chr "0") (w - List.length ds) ++ ds.

(** [bs.hex()]: two lower-case digits per byte. *)
Definition bytes_hex (bs : bytes) : str :=
  flat_map (fun x => [hex_digit_lower (Byte.to_N x / 16);
                      hex_digit_lower (Byte.to_N x mod 16)]) bs.

(** [s.upper()] on the ASCII letters; the only strings the program
    upper-cases are outputs of [bytes.hex()]. *)
Definition upper_char (c : char) : char :=
  (if (97 <=? c) && (c <=? 122) then c - 32 else c)%N.

Definition upper (s : str) : str := List.map upper_char s.

(** *** [bytes.decode()], that is strict UTF-8 *)

Definition cont (x : N) : bool := ((128 <=? x) && (x <=? 191))%N.

Definition in_range (lo hi x : N) : bool := ((lo <=? x) && (x <=? hi))%N.

(** Allowed range of the second byte of a 3-byte sequence: no overlong
    forms after [E0], no surrogates after [ED]. *)
Definition second3 (n0 : N) : N * N :=
  (if n0 =? 224 then (160, 191) else if n0 =? 237 then (128, 159) else (128, 191))%N.

(** Allowed range of the second byte of a 4-byte sequence: no overlong
    forms after [F0], nothing above U+10FFFF after [F4]. *)
Definition second4 (n0 : N) : N * N :=
  (if n0 =? 240 then (144, 191) else if n0 =? 244 then (128, 143) else (128, 191))%N.

Definition cons_opt (c : char) (r : option str) : option str :=
  match r with Some s => Some (c :: s) | None => None end.

(** [None] stands for [UnicodeDecodeError]. *)
Fixpoint decode (bs : bytes) : option str :=
  match bs with
  | [] => Some []
  | b0 :: t0 =>
      let n0 := Byte.to_N b0 in
      if (n0 <? 128)%N then cons_opt n0 (decode t0)
      else if (n0 <? 194)%N then None
      else if (n0 <? 224)%N then
        match t0 with
        | b1 :: t1 =>
            let n1 := Byte.to_N b1 in
            if cont n1
            then cons_opt ((n0 - 192) * 64 + (n1 - 128))%N (decode t1)
            else None
        | _ => None
        end
      else if (n0 <? 240)%N then
        match t0 with
        | b1 :: b2 :: t2 =>
            let n1 := Byte.to_N b1 in
            let n2 := Byte.to_N b2 in
            if in_range (fst (second3 n0)) (snd (second3 n0)) n1 && cont n2
            then cons_opt ((n0 - 224) * 4096 + (n1 - 128) * 64 + (n2 - 128))%N
                          (decode t2)
            else None
        | _ => None
        end
      else if (n0 <? 245)%N then
        match t0 with
        | b1 :: b2 :: b3 :: t3 =>
            let n1 := Byte.to_N b1 in
            let n2 := Byte.to_N b2 in
            let n3 := Byte.to_N b3 in
            if in_range (fst (second4 n0)) (snd (second4 n0)) n1
               && cont n2 && cont n3
            then cons_opt ((n0 - 240) * 262144 + (n1 - 128) * 4096
                           + (n2 - 128) * 64 + (n3 - 128))%N
                          (decode t3)
            else None
        | _ => None
        end
      else None
  end.

End Py.

Import Py.

(** ** Exceptions and results *)

(** The exception classes of the program (lines 9-30), and the
    exceptions of the Python runtime and of [pefile] that its code can
    raise: [AttributeError] is what reading an attribute that an object
    does not have raises. *)
Inductive exn : Type :=
| NoDebugEntryException
| UnsupportedDebugEntryTypeError (tag : bytes)
| UnexpectedReturnStatusError (status : Z)
| PdbNotFoundError
| Exception (msg : str)
| AttributeError
| IndexError
| UnicodeDecodeError
| PEFormatError.

(** The subclasses of [ExtractPdbException]: the failures of the
    extraction that [main] recognises. *)
Definition is_ExtractPdbException (e : exn) : bool :=
  match e with
  | NoDebugEntryException | UnsupportedDebugEntryTypeError _ => true
  | _ => false
  end.

(** The subclasses of [DownloadPdbException]. *)
Definition is_DownloadPdbException (e : exn) : bool :=
  match e with
  | UnexpectedReturnStatusError _ | PdbNotFoundError => true
  | _ => false
  end.

Inductive result (A : Type) : Type :=
| Return (a : A)
| Raise (e : exn).

Arguments Return {A} a.
Arguments Raise {A} e.

Definition bind {A B : Type} (c : result A) (k : A -> result B) : result B :=
  match c with
  | Return a => k a
  | Raise e => Raise e
  end.

Notation "x <- c ;; k" := (bind c (fun x => k))
  (at level 61, c at next level, right associativity).

(** ** The data of the program *)

Record PdbInfo : Type := {
  pdb_signature : str;
  pdbfilename : str
}.

(** The [CV_INFO_PDB70] structure of [pefile], the only one with an
    attribute [CvSignature]. [pefile] unpacks [Signature_Data1] and
    [Age] as 32-bit, [Signature_Data2] and [Signature_Data3] as 16-bit,
    [Signature_Data4] and [Signature_Data5] as 8-bit unsigned integers
    and [Signature_Data6] as 6 bytes; the structure has an attribute
    [PdbFileName] only when the record holds bytes after these. *)
Record CV_INFO_PDB70 : Type := {
  CvSignature : bytes;
  Signature_Data1 : N;
  Signature_Data2 : N;
  Signature_Data3 : N;
  Signature_Data4 : N;
  Signature_Data5 : N;
  Signature_Data6 : bytes;
  Age : N;
  PdbFileName : option bytes
}.

(** The [CV_INFO_PDB20] structure of [pefile], for the older records:
    it has no attribute [CvSignature]. *)
Module PDB20.

Record CV_INFO_PDB20 : Type := {
  CvHeaderSignature : N;
  CvHeaderOffset : N;
  Signature : N;
  Age : N;
  PdbFileName : option bytes
}.

End PDB20.

(** The value of [entry] in an element of [DIRECTORY_ENTRY_DEBUG]:
    [None] when [pefile] does not decode the debug data, and otherwise
    the structure it unpacked ([IMAGE_DEBUG_MISC] has none of the
    attributes that the program reads). *)
Inductive entry_obj : Type :=
| PyNone
| PDB70 (r : CV_INFO_PDB70)
| PDB20 (r : PDB20.CV_INFO_PDB20)
| IMAGE_DEBUG_MISC.

Record DebugData : Type := { entry : entry_obj }.

(** A parsed image; [None] when the object has no attribute
    [DIRECTORY_ENTRY_DEBUG]. *)
Record PE : Type := { DIRECTORY_ENTRY_DEBUG : option (list DebugData) }.

Record Response : Type := { status : Z; body : bytes }.

(** ** [PdbInfo.basename] *)

Definition basename (self : PdbInfo) : str :=
  let last_slash := rfind (pdbfilename self) (chr "/") in
  let last_slash := Z.max last_slash (rfind (pdbfilename self) (chr "\")) in
  if (last_slash =? -1)%Z
  then pdbfilename self
  else slice_from (pdbfilename self) (last_slash + 1).

(** ** [extract_pdb_info] *)

(** Reading an attribute of the entry: [AttributeError] when the
    object does not have it. *)
Definition get_CvSignature (o : entry_obj) : result bytes :=
  match o with
  | PDB70 r => Return (CvSignature r)
  | _ => Raise AttributeError
  end.

Definition get_Signature_Data1 (o : entry_obj) : result N :=
  match o with
  | PDB70 r => Return (Signature_Data1 r)
  | _ => Raise AttributeError
  end.

Definition get_Signature_Data2 (o : entry_obj) : result N :=
  match o with
  | PDB70 r => Return (Signature_Data2 r)
  | _ => Raise AttributeError
  end.

Definition get_Signature_Data3 (o : entry_obj) : result N :=
  match o with
  | PDB70 r => Return (Signature_Data3 r)
  | _ => Raise AttributeError
  end.

Definition get_Signature_Data4 (o : entry_obj) : result N :=
  match o with
  | PDB70 r => Return (Signature_Data4 r)
  | _ => Raise AttributeError
  end.

Definition get_Signature_Data5 (o : entry_obj) : result N :=
  match o with
  | PDB70 r => Return (Signature_Data5 r)
  | _ => Raise AttributeError
  end.

Definition get_Signature_Data6 (o : entry_obj) : result bytes :=
  match o with
  | PDB70 r => Return (Signature_Data6 r)
  | _ => Raise AttributeError
  end.

Definition get_Age (o : entry_obj) : result N :=
  match o with
  | PDB70 r => Return (Age r)
  | PDB20 r => Return (PDB20.Age r)
  | _ => Raise AttributeError
  end.

Definition get_PdbFileName (o : entry_obj) : result bytes :=
  match o with
  | PDB70 r =>
      match PdbFileName r with
      | Some name => Return name
      | None => Raise AttributeError
      end
  | PDB20 r =>
      match PDB20.PdbFileName r with
      | Some name => Return name
      | None => Raise AttributeError
      end
  | _ => Raise AttributeError
  end.

(** The format call of lines 62-69, on the values of the attributes. *)
Definition format_signature (d1 d2 d3 d4 d5 : N) (d6 : bytes) (age : N) : str :=
  format_0X 8 d1 ++ format_0X 4 d2 ++ format_0X 4 d3 ++ format_0X 2 d4
  ++ format_0X 2 d5 ++ upper (bytes_hex d6) ++ format_X age.

(** The signature of lines 62-69 for a [CV_INFO_PDB70] structure. *)
Definition rsds_signature (debug_entry : CV_INFO_PDB70) : str :=
  format_signature
    (Signature_Data1 debug_entry) (Signature_Data2 debug_entry)
    (Signature_Data3 debug_entry) (Signature_Data4 debug_entry)
    (Signature_Data5 debug_entry) (Signature_Data6 debug_entry)
    (Age debug_entry).

Section Extract.

(** [pefile.PE(data=...)], the parser of the [pefile] library. *)
Variable pefile_PE : bytes -> result PE.

(** The assignment [signature = ...] after the [raise] of line 71 is
    dead code and has no counterpart here. *)
Definition extract_pdb_info (pe_data : bytes) : result PdbInfo :=
  pe <- pefile_PE pe_data ;;
  match DIRECTORY_ENTRY_DEBUG pe with
  | None | Some [] => Raise NoDebugEntryException
  | Some (d :: _) =>
      let debug_entry := entry d in
      tag <- get_CvSignature debug_entry ;;
      signature <-
        (if bytes_eqb tag (blit "RSDS")
         then
           d1 <- get_Signature_Data1 debug_entry ;;
           d2 <- get_Signature_Data2 debug_entry ;;
           d3 <- get_Signature_Data3 debug_entry ;;
           d4 <- get_Signature_Data4 debug_entry ;;
           d5 <- get_Signature_Data5 debug_entry ;;
           d6 <- get_Signature_Data6 debug_entry ;;
           age <- get_Age debug_entry ;;
           Return (format_signature d1 d2 d3 d4 d5 d6 age)
         else if bytes_eqb tag (blit "01BN")
         then Raise (Exception (lit "found"))
         else Raise (UnsupportedDebugEntryTypeError tag)) ;;
      pdbfilename <- get_PdbFileName debug_entry ;;
      pdbfilename <-
        match last_byte pdbfilename with
        | None => Raise IndexError
        | Some x =>
            Return (if Byte.eqb x x00 then drop_last pdbfilename else pdbfilename)
        end ;;
      match decode pdbfilename with
      | Some name => Return {| pdb_signature := signature; pdbfilename := name |}
      | None => Raise UnicodeDecodeError
      end
  end.

End Extract.

(** ** The entries that [pefile] builds *)

(** A little-endian unsigned integer. *)
Fixpoint le_uint (bs : bytes) : N :=
  match bs with
  | [] => 0%N
  | x :: t => (Byte.to_N x + 256 * le_uint t)%N
  end.

(** [data[a:b]] for [0 <= a <= b]. *)
Definition sub_bytes (data : bytes) (a b : nat) : bytes :=
  firstn (b - a) (skipn a data).

(** [pefile] is an external library; this is how its
    [PE.parse_debug_directory] decodes the data of a debug-directory
    entry of type CodeView. Data that begin with RSDS are unpacked as
    [CV_INFO_PDB70] (format [4sIHHBB6sI], 24 bytes) and data that begin
    with NB10 as [CV_INFO_PDB20] (format [IIII], 16 bytes), in both
    cases with an attribute [PdbFileName] for the bytes that follow, if
    there are any; data shorter than the format, and data with any
    other tag, leave [entry] at [None]. *)
Definition pefile_codeview (data : bytes) : entry_obj :=
  if bytes_eqb (firstn 4 data) (blit "RSDS") then
    if (List.length data <? 24)%nat then PyNone
    else
      PDB70
        {| CvSignature := sub_bytes data 0 4;
           Signature_Data1 := le_uint (sub_bytes data 4 8);
           Signature_Data2 := le_uint (sub_bytes data 8 10);
           Signature_Data3 := le_uint (sub_bytes data 10 12);
           Signature_Data4 := le_uint (sub_bytes data 12 13);
           Signature_Data5 := le_uint (sub_bytes data 13 14);
           Signature_Data6 := sub_bytes data 14 20;
           Age := le_uint (sub_bytes data 20 24);
           PdbFileName :=
             if (24 <? List.length data)%nat then Some (skipn 24 data)
             else None |}
  else if bytes_eqb (firstn 4 data) (blit "NB10") then
    if (List.length data <? 16)%nat then PyNone
    else
      PDB20
        {| PDB20.CvHeaderSignature := le_uint (sub_bytes data 0 4);
           PDB20.CvHeaderOffset := le_uint (sub_bytes data 4 8);
           PDB20.Signature := le_uint (sub_bytes data 8 12);
           PDB20.Age := le_uint (sub_bytes data 12 16);
           PDB20.PdbFileName :=
             if (16 <? List.length data)%nat then Some (skipn 16 data)
             else None |}
  else PyNone.

(** ** [download_pdb] *)

Definition default_pdbstore : str :=
  lit "https://msdl.microsoft.com/download/symbols".

Section Download.

(** The symbol store as the HTTP client sees it: the response to a GET
    of each URL. *)
Variable server : str -> Response.

(** [session.get(url)]: the request is appended to the log of requests
    sent so far. *)
Definition session_get (url : str) (sent : list str) : Response * list str :=
  (server url, sent ++ [url]).

Definition download_pdb (pdbinfo : PdbInfo) (pdbstore : option str)
           (sent : list str) : result bytes * list str :=
  let pdbstore :=
    match pdbstore with None => default_pdbstore | Some s => s end in
  let pdbstore :=
    if endswith pdbstore (chr "/") then drop_last pdbstore else pdbstore in
  let pdbbasename := basename pdbinfo in
  let url := pdbstore ++ lit "/" ++ pdbbasename ++ lit "/"
             ++ pdb_signature pdbinfo ++ lit "/" ++ pdbbasename in
  let (response, sent') := session_get url sent in
  (if (status response =? 404)%Z then Raise PdbNotFoundError
   else if (status response =? 200)%Z then Return (body response)
   else Raise (UnexpectedReturnStatusError (status response)),
   sent').

End Download.

(** ** [PdbInfo.__repr__] *)

Definition PdbInfo_repr (self : PdbInfo) : str :=
  lit "PdbInfo(signature=" ++ pdb_signature self
  ++ lit ",filename=" ++ pdbfilename self ++ lit ")".

(** ** [main] *)

(** [str(n)] for an integer: decimal digits, with a minus sign for a
    negative number. *)
Definition str_of_int (n : Z) : str := lit (NilZero.string_of_int (Z.to_int n)).

(** One byte inside [repr(bs)], between quotes [quote]. *)
Definition repr_byte (quote : N) (x : byte) : str :=
  let c := Byte.to_N x in
  if (c =? quote)%N || (c =? 92)%N then [chr "\"; c]
  else if (c =? 9)%N then lit "\t"
  else if (c =? 10)%N then lit "\n"
  else if (c =? 13)%N then lit "\r"
  else if (c <? 32)%N || (127 <=? c)%N
  then [chr "\"; chr "x"; hex_digit_lower (c / 16); hex_digit_lower (c mod 16)]
  else [c].

Definition has_byte (c : N) (bs : bytes) : bool :=
  existsb (fun x => (Byte.to_N x =? c)%N) bs.

(** [repr(bs)], which is what an f-string shows for a bytes value:
    single quotes, or double quotes when the value holds a single quote
    and no double quote. *)
Definition bytes_repr (bs : bytes) : str :=
  let quote := if has_byte 39 bs && negb (has_byte 34 bs) then 34%N else 39%N in
  chr "b" :: quote :: flat_map (repr_byte quote) bs ++ [quote].

(** The parsed command line (lines 109-115): [--file] is required, the
    other options are [None] when absent. *)
Record Args : Type := {
  file : str;
  store : option str;
  no_download : bool;
  output : option str;
  output_dir : option str
}.

(** The errors of [open]: the one that [main] catches, and the others. *)
Inductive os_error : Type :=
| FileNotFoundError
| OtherOSError.

(** What [main] acts on: the file system, the lines printed so far and
    the requests sent so far. *)
Record World (FS : Type) : Type := {
  files : FS;
  stdout : list str;
  requests : list str
}.

Arguments files {FS} _.
Arguments stdout {FS} _.
Arguments requests {FS} _.

(** How a run of [main] ends: it returns, [parser.error] exits with a
    status and a message, or an exception leaves it. *)
Inductive ending : Type :=
| Returned
| SystemExit (code : Z) (message : str)
| Uncaught (e : exn)
| UncaughtOS (e : os_error).

Definition print {FS : Type} (line : str) (w : World FS) : World FS :=
  {| files := files w; stdout := stdout w ++ [line]; requests := requests w |}.

Definition set_requests {FS : Type} (sent : list str) (w : World FS) : World FS :=
  {| files := files w; stdout := stdout w; requests := sent |}.

Definition set_files {FS : Type} (fs : FS) (w : World FS) : World FS :=
  {| files := fs; stdout := stdout w; requests := requests w |}.

Section Main.

Variable pefile_PE : bytes -> result PE.
Variable server : str -> Response.

(** The file system of the host: reading a whole file
    ([open(path, 'rb')] and [read]), writing one ([open(path, 'wb')]
    and [write]), and [os.path.join]. *)
Variable FS : Type.
Variable read_file : FS -> str -> bytes + os_error.
Variable write_file : FS -> str -> bytes -> FS * option os_error.
Variable os_path_join : str -> str -> str.

(** [main], after [parser.parse_args()] (lines 117-163). *)
Definition main (args : Args) (w : World FS) : ending * World FS :=
  match read_file (files w) (file args) with
  | inr FileNotFoundError =>
      (SystemExit 2 (lit "could not find file " ++ file args), w)
  | inr e => (UncaughtOS e, w)
  | inl pe_data =>
      match extract_pdb_info pefile_PE pe_data with
      | Raise NoDebugEntryException =>
          (Returned, print (lit "PE file does not contain a debug entry.") w)
      | Raise (UnsupportedDebugEntryTypeError tag) =>
          (Returned,
           print (lit "PE file contains an unssupported debug entry type: "
                  ++ bytes_repr tag) w)
      | Raise e => (Uncaught e, w)
      | Return pdbinfo =>
          let w := print (lit "PDB signature: " ++ pdb_signature pdbinfo) w in
          let w := print (lit "PDB filename: " ++ pdbfilename pdbinfo) w in
          if negb (no_download args) then
            let (r, sent) :=
              download_pdb server pdbinfo (store args) (requests w) in
            let w := set_requests sent w in
            match r with
            | Raise PdbNotFoundError =>
                (Returned, print (lit "PDB store returned 404. PDB not found.") w)
            | Raise (UnexpectedReturnStatusError code) =>
                (Returned,
                 print (lit "PDB store returned unexepected status code: "
                        ++ str_of_int code) w)
            | Raise e => (Uncaught e, w)
            | Return pdb =>
                let filename :=
                  match output args with
                  | Some (c :: t) => c :: t
                  | _ => basename pdbinfo
                  end in
                let filepath :=
                  match output_dir args with
                  | Some (c :: t) => os_path_join (c :: t) filename
                  | _ => filename
                  end in
                match write_file (files w) filepath pdb with
                | (fs, Some e) => (UncaughtOS e, set_files fs w)
                | (fs, None) =>
                    (Returned,
                     print (lit "PDB written to " ++ filepath) (set_files fs w))
                end
            end
          else (Returned, w)
      end
  end.

End Main.

(** ** Specification-side notions

    These definitions are not part of the program: they are the
    vocabulary in which its properties are stated. *)

Definition is_sep (c : char) : Prop := c = chr "/" \/ c = chr "\".

(** A string without path separators. *)
Definition no_sep (s : str) : Prop := Forall (fun c => ~ is_sep c) s.

(** [16 ^ k]: the numbers below it are those of at most [k] hexadecimal
    digits. *)
Definition pow16 (k : nat) : N := (16 ^ N.of_nat k)%N.

(** The value of an upper-case hexadecimal digit. *)
Definition hex_digit_value (c : char) : option N :=
  (if (48 <=? c) && (c <=? 57) then Some (c - 48)
   else if (65 <=? c) && (c <=? 70) then Some (c - 55)
   else None)%N.

(** The number that a string of upper-case hexadecimal digits denotes;
    [None] if some character is not such a digit. *)
Fixpoint hex_value_acc (acc : N) (s : str) : option N :=
  match s with
  | [] => Some acc
  | c :: t =>
      match hex_digit_value c with
      | Some d => hex_value_acc (16 * acc + d) t
      | None => None
      end
  end.

Definition hex_value (s : str) : option N := hex_value_acc 0 s.

(** The bytes that a string of pairs of upper-case hexadecimal digits
    denotes. *)
Fixpoint unhex (s : str) : option (list N) :=
  match s with
  | [] => Some []
  | c1 :: c2 :: t =>
      match hex_digit_value c1, hex_digit_value c2, unhex t with
      | Some h, Some l, Some r => Some ((16 * h + l)%N :: r)
      | _, _, _ => None
      end
  | _ => None
  end.

(** Natural width: the single digit [0], or at least one digit and no
    leading zero. *)
Definition natural_width (s : str) : Prop :=
  s = [chr "0"] \/ (s <> [] /\ hd 0%N s <> chr "0").

(** UTF-8 encoding of a code point, and of a string. *)
Definition encode_char (c : char) : list N :=
  (if c <? 128 then [c]
   else if c <? 2048 then [192 + c / 64; 128 + c mod 64]
   else if c <? 65536 then
     [224 + c / 4096; 128 + (c / 64) mod 64; 128 + c mod 64]
   else [240 + c / 262144; 128 + (c / 4096) mod 64;
         128 + (c / 64) mod 64; 128 + c mod 64])%N.

Definition encode (s : str) : list N := flat_map encode_char s.

(** [store] is [s0] without one trailing slash, if [s0] has one. *)
Definition strip_one_slash (s0 store : str) : Prop :=
  s0 = store ++ [chr "/"]
  \/ (s0 = store /\ ~ exists p, s0 = p ++ [chr "/"]).

(** An upper-case hexadecimal digit. *)
Definition is_hex_digit (c : char) : Prop := hex_digit_value c <> None.

(** A Unicode scalar value: a code point that is not a surrogate. *)
Definition is_scalar (c : char) : Prop :=
  (c < 1114112 /\ ~ (55296 <= c <= 57343))%N.

(** A byte that occurs in no UTF-8 text. *)
Definition never_in_utf8 (x : byte) : Prop :=
  (Byte.to_N x = 192 \/ Byte.to_N x = 193 \/ 245 <= Byte.to_N x)%N.

(** An option of the command line that counts as given: present and not
    the empty string. *)
Definition given (o : option str) : option str :=
  match o with
  | Some (c :: t) => Some (c :: t)
  | _ => None
  end.

(** Well-formed UTF-8, as the Unicode standard tabulates it: [utf8 bs s]
    when the bytes [bs] are the encodings of the code points [s], one
    after the other. *)
Inductive utf8 : bytes -> str -> Prop :=
| utf8_nil : utf8 [] []
| utf8_1 (b0 : byte) (bs : bytes) (s : str) :
    (Byte.to_N b0 < 128)%N ->
    utf8 bs s ->
    utf8 (b0 :: bs) (Byte.to_N b0 :: s)
| utf8_2 (b0 b1 : byte) (bs : bytes) (s : str) :
    (194 <= Byte.to_N b0 < 224)%N ->
    (128 <= Byte.to_N b1 <= 191)%N ->
    utf8 bs s ->
    utf8 (b0 :: b1 :: bs)
         (((Byte.to_N b0 - 192) * 64 + (Byte.to_N b1 - 128))%N :: s)
| utf8_3 (b0 b1 b2 : byte) (bs : bytes) (s : str) :
    (224 <= Byte.to_N b0 < 240)%N ->
    (128 <= Byte.to_N b1 <= 191)%N ->
    (Byte.to_N b0 = 224 -> 160 <= Byte.to_N b1)%N ->
    (Byte.to_N b0 = 237 -> Byte.to_N b1 <= 159)%N ->
    (128 <= Byte.to_N b2 <= 191)%N ->
    utf8 bs s ->
    utf8 (b0 :: b1 :: b2 :: bs)
         (((Byte.to_N b0 - 224) * 4096 + (Byte.to_N b1 - 128) * 64
           + (Byte.to_N b2 - 128))%N :: s)
| utf8_4 (b0 b1 b2 b3 : byte) (bs : bytes) (s : str) :
    (240 <= Byte.to_N b0 < 245)%N ->
    (128 <= Byte.to_N b1 <= 191)%N ->
    (Byte.to_N b0 = 240 -> 144 <= Byte.to_N b1)%N ->
    (Byte.to_N b0 = 244 -> Byte.to_N b1 <= 143)%N ->
    (128 <= Byte.to_N b2 <= 191)%N ->
    (128 <= Byte.to_N b3 <= 191)%N ->
    utf8 bs s ->
    utf8 (b0 :: b1 :: b2 :: b3 :: bs)
         (((Byte.to_N b0 - 240) * 262144 + (Byte.to_N b1 - 128) * 4096
           + (Byte.to_N b2 - 128) * 64 + (Byte.to_N b3 - 128))%N :: s).

(** The command line with another [--output], or another
    [--output-dir]. *)
Definition with_output (o : option str) (args : Args) : Args :=
  {| file := file args; store := store args; no_download := no_download args;
     output := o; output_dir := output_dir args |}.

Definition with_output_dir (o : option str) (args : Args) : Args :=
  {| file := file args; store := store args; no_download := no_download args;
     output := output args; output_dir := o |}.

(** The two lines that [main] prints once the identity is known. *)
Definition identity_lines (info : PdbInfo) : list str :=
  [lit "PDB signature: " ++ pdb_signature info;
   lit "PDB filename: " ++ pdbfilename info].

(** The first debug-directory entry of a parsed image, if any. *)
Definition first_entry (pe : PE) : option entry_obj :=
  match DIRECTORY_ENTRY_DEBUG pe with
  | Some (d :: _) => Some (entry d)
  | _ => None
  end.


(** The ranges of the fields of an [RSDS] record as [pefile] unpacks
    them. *)
Definition rsds_fields_in_range (e : CV_INFO_PDB70) : Prop :=
  (Signature_Data1 e < 2 ^ 32)%N /\ (Signature_Data2 e < 2 ^ 16)%N /\
  (Signature_Data3 e < 2 ^ 16)%N /\ (Signature_Data4 e < 2 ^ 8)%N /\
  (Signature_Data5 e < 2 ^ 8)%N /\ List.length (Signature_Data6 e) = 6%nat.

(** ** Sample data *)

Definition spec_entry : CV_INFO_PDB70 :=
  {| CvSignature := blit "RSDS";
     Signature_Data1 := 0x9C85A737;
     Signature_Data2 := 0x3CC2;
     Signature_Data3 := 0xBC2A;
     Signature_Data4 := 0x7A;
     Signature_Data5 := 0xB9;
     Signature_Data6 := [xc9; x38; x89; x52; xb8; xf8];
     Age := 1;
     PdbFileName := Some (blit "C:\sym\vcruntime140_1.amd64.pdb" ++ [x00]) |}.

(** An image whose debug directory holds the one entry [o]. *)
Definition image_with (o : entry_obj) : PE :=
  {| DIRECTORY_ENTRY_DEBUG := Some [ {| entry := o |} ] |}.

Definition image_of (e : CV_INFO_PDB70) : PE := image_with (PDB70 e).

(** A parser that yields the same parsed image for every input. *)
Definition parsed_as (pe : PE) : bytes -> result PE := fun _ => Return pe.

Definition with_filename (fn : option bytes) (e : CV_INFO_PDB70)
  : CV_INFO_PDB70 :=
  {| CvSignature := CvSignature e;
     Signature_Data1 := Signature_Data1 e;
     Signature_Data2 := Signature_Data2 e;
     Signature_Data3 := Signature_Data3 e;
     Signature_Data4 := Signature_Data4 e;
     Signature_Data5 := Signature_Data5 e;
     Signature_Data6 := Signature_Data6 e;
     Age := Age e;
     PdbFileName := fn |}.

(** The sample entry without file-name bytes, as [pefile] builds it. *)
Definition entry_no_filename : CV_INFO_PDB70 := with_filename None spec_entry.

(** The fixed part of the sample RSDS record, as it lies in the file:
    the tag, the identifier and the age, little-endian. *)
Definition rsds_header : bytes :=
  blit "RSDS"
  ++ [x37; xa7; x85; x9c; xc2; x3c; x2a; xbc; x7a; xb9;
      xc9; x38; x89; x52; xb8; xf8; x01; x00; x00; x00].

(** The sample RSDS record, with its null-terminated file name. *)
Definition rsds_data : bytes :=
  rsds_header ++ blit "C:\sym\vcruntime140_1.amd64.pdb" ++ [x00].

(** An older record, tagged NB10. *)
Definition nb10_data : bytes :=
  blit "NB10"
  ++ [x00; x00; x00; x00; x4e; x61; xbc; x00; x01; x00; x00; x00]
  ++ blit "vcruntime.pdb" ++ [x00].


(** A file system for the examples: the files written or present, the
    latest first; every write succeeds. *)
Definition sample_fs : Type := list (str * bytes).

Fixpoint str_eqb (x y : str) : bool :=
  match x, y with
  | [], [] => true
  | a :: x', c :: y' => N.eqb a c && str_eqb x' y'
  | _, _ => false
  end.

Fixpoint lookup_file (fs : sample_fs) (path : str) : option bytes :=
  match fs with
  | [] => None
  | (p, content) :: rest =>
      if str_eqb p path then Some content else lookup_file rest path
  end.

Definition sample_read (fs : sample_fs) (path : str) : bytes + os_error :=
  match lookup_file fs path with
  | Some content => inl content
  | None => inr FileNotFoundError
  end.

Definition sample_write (fs : sample_fs) (path : str) (content : bytes)
  : sample_fs * option os_error :=
  ((path, content) :: fs, None).

Definition sample_join (dir name : str) : str := dir ++ lit "/" ++ name.

(** A world in which the input file [a.dll] exists. *)
Definition sample_world : World sample_fs :=
  {| files := [(lit "a.dll", [])]; stdout := []; requests := [] |}.

Definition sample_args : Args :=
  {| file := lit "a.dll"; store := None; no_download := false;
     output := None; output_dir := None |}.


Definition sample_args_missing_file : Args :=
  {| file := lit "missing.dll"; store := None; no_download := false;
     output := None; output_dir := None |}.

(** A store that answers every request with the same status and body. *)
Definition server_status (code : Z) (content : bytes) : str -> Response :=
  fun _ => {| status := code; body := content |}.

(** [main] on the sample file system, for an image that parses to [pe]
    and a store that answers [code]. *)
Definition sample_main (pe : PE) (code : Z) (args : Args)
           (w : World sample_fs) : ending * World sample_fs :=
  main (parsed_as pe) (server_status code [x4d; x53]) sample_fs
       sample_read sample_write sample_join args w.


(** * Properties *)

(** ** Strings *)

Lemma bytes_eqb_eq (x y : bytes) : bytes_eqb x y = true <-> x = y.
Proof.
  revert y; induction x as [|a x IH]; intros [|c y]; simpl;
    try (split; [discriminate | discriminate]); try tauto.
  rewrite andb_true_iff, IH. split.
  - intros [H1 H2]. apply Byte.byte_dec_bl in H1. congruence.
  - intros H; inversion H; subst. split; [apply Byte.byte_dec_lb|]; reflexivity.
Qed.

Lemma bytes_eqb_neq (x y : bytes) : x <> y -> bytes_eqb x y = false.
Proof.
  intros H. destruct (bytes_eqb x y) eqn:E; [|reflexivity].
  apply bytes_eqb_eq in E. contradiction.
Qed.

Lemma rfind_from_absent (s : str) (c : char) :
  ~ In c s -> forall i last, rfind_from i s c last = last.
Proof.
  induction s as [|x t IH]; simpl; intros Hn i last; [reflexivity|].
  destruct (N.eqb_spec x c) as [->|Hx]; [exfalso; auto|].
  apply IH. auto.
Qed.

Lemma rfind_from_last_hit (pre post : str) (c : char) :
  ~ In c post ->
  forall i last,
    rfind_from i (pre ++ c :: post) c last = (i + Z.of_nat (List.length pre))%Z.
Proof.
  intros Hn. induction pre as [|x t IH]; simpl; intros i last.
  - rewrite N.eqb_refl, rfind_from_absent by assumption. lia.
  - rewrite IH. lia.
Qed.

Lemma rfind_from_skip (pre post : str) (x c : char) :
  x <> c -> ~ In c post ->
  forall i last,
    rfind_from i (pre ++ x :: post) c last = rfind_from i pre c last.
Proof.
  intros Hx Hn. induction pre as [|y t IH]; simpl; intros i last.
  - destruct (N.eqb_spec x c); [contradiction|].
    apply rfind_from_absent; assumption.
  - apply IH.
Qed.

Lemma rfind_from_range (s : str) (c : char) :
  forall i last,
    (last < i)%Z ->
    (last <= rfind_from i s c last < i + Z.of_nat (List.length s))%Z
    \/ (s = [] /\ rfind_from i s c last = last).
Proof.
  induction s as [|x t IH]; simpl; intros i last Hl; [right; auto|].
  left.
  destruct (IH (i + 1)%Z (if N.eqb x c then i else last)) as [H|[-> H]].
  - destruct (N.eqb x c); lia.
  - destruct (N.eqb x c); lia.
  - simpl. destruct (N.eqb x c); lia.
Qed.

Lemma slice_from_app {A : Type} (pre post : list A) :
  slice_from (pre ++ post) (Z.of_nat (List.length pre)) = post.
Proof.
  unfold slice_from.
  destruct (Z.ltb_spec (Z.of_nat (List.length pre)) 0); [lia|].
  rewrite Nat2Z.id, skipn_app, skipn_all, Nat.sub_diag. reflexivity.
Qed.

(** [basename] on a name without separators. *)
Lemma basename_no_sep (sg name : str) :
  (forall c, In c name -> ~ is_sep c) ->
  basename {| pdb_signature := sg; pdbfilename := name |} = name.
Proof.
  intros H. unfold basename, rfind; cbn [pdbfilename].
  rewrite !rfind_from_absent; [reflexivity| |].
  - intros Hin. apply (H _ Hin). right; reflexivity.
  - intros Hin. apply (H _ Hin). left; reflexivity.
Qed.

(** [basename] on a name whose last separator is [c]. *)
Lemma basename_last_sep (sg pre post : str) (c : char) :
  is_sep c ->
  (forall x, In x post -> ~ is_sep x) ->
  basename {| pdb_signature := sg; pdbfilename := pre ++ c :: post |} = post.
Proof.
  intros Hc Hpost. unfold basename; cbn [pdbfilename].
  assert (Hs : ~ In (chr "/") post) by (intros Hin; apply (Hpost _ Hin); left; reflexivity).
  assert (Hb : ~ In (chr "\") post) by (intros Hin; apply (Hpost _ Hin); right; reflexivity).
  assert (Hmax : Z.max (rfind (pre ++ c :: post) (chr "/"))
                       (rfind (pre ++ c :: post) (chr "\"))
                 = Z.of_nat (List.length pre)).
  { unfold rfind. destruct Hc as [-> | ->].
    - rewrite rfind_from_last_hit by assumption.
      rewrite (rfind_from_skip pre post (chr "/") (chr "\")) by (assumption || discriminate).
      destruct (rfind_from_range pre (chr "\") 0 (-1)) as [H|[_ H]]; lia.
    - rewrite rfind_from_last_hit by assumption.
      rewrite (rfind_from_skip pre post (chr "\") (chr "/")) by (assumption || discriminate).
      destruct (rfind_from_range pre (chr "/") 0 (-1)) as [H|[_ H]]; lia. }
  rewrite Hmax.
  destruct (Z.eqb_spec (Z.of_nat (List.length pre)) (-1)); [lia|].
  replace (pre ++ c :: post) with ((pre ++ [c]) ++ post) by (rewrite <- app_assoc; reflexivity).
  replace (Z.of_nat (List.length pre) + 1)%Z with (Z.of_nat (List.length (pre ++ [c])))
    by (rewrite length_app; simpl; lia).
  apply slice_from_app.
Qed.

(** ** Hexadecimal formatting *)

Ltac case_cmp :=
  repeat match goal with
  | |- context [N.leb ?a ?b] => destruct (N.leb_spec a b)
  | |- context [N.ltb ?a ?b] => destruct (N.ltb_spec a b)
  | |- context [N.eqb ?a ?b] => destruct (N.eqb_spec a b)
  end; cbn [andb orb negb]; try lia.

Lemma pow16_S (k : nat) : pow16 (S k) = (16 * pow16 k)%N.
Proof. unfold pow16. rewrite Nat2N.inj_succ, N.pow_succ_r'. reflexivity. Qed.

Lemma pow16_pos (k : nat) : (0 < pow16 k)%N.
Proof. unfold pow16. apply N.neq_0_lt_0, N.pow_nonzero. discriminate. Qed.

Lemma hex_digit_value_upper (d : N) :
  (d < 16)%N -> hex_digit_value (hex_digit_upper d) = Some d.
Proof.
  intros H. unfold hex_digit_value, hex_digit_upper.
  case_cmp; f_equal; lia.
Qed.

Lemma upper_hex_digit_lower (d : N) :
  (d < 16)%N -> upper_char (hex_digit_lower d) = hex_digit_upper d.
Proof.
  intros H. unfold upper_char, hex_digit_lower, hex_digit_upper.
  case_cmp.
Qed.

Lemma hex_digit_upper_zero (d : N) :
  (d < 16)%N -> d <> 0%N -> hex_digit_upper d <> chr "0".
Proof.
  intros H Hd. unfold hex_digit_upper. change (chr "0") with 48%N. case_cmp.
Qed.

Lemma hex_value_acc_app (x y : str) :
  forall a,
    hex_value_acc a (x ++ y)
    = match hex_value_acc a x with
      | Some v => hex_value_acc v y
      | None => None
      end.
Proof.
  induction x as [|c t IH]; simpl; intros a; [reflexivity|].
  destruct (hex_digit_value c); [apply IH | reflexivity].
Qed.

(** Quotient and remainder by 16, named. *)
Lemma div16 (n : N) :
  exists q r, (n / 16 = q /\ n mod 16 = r /\ n = 16 * q + r /\ r < 16)%N.
Proof.
  exists (n / 16)%N, (n mod 16)%N. repeat split.
  - apply N.div_mod; discriminate.
  - apply N.mod_lt; discriminate.
Qed.

Lemma hex_digits_S (f : nat) (n : N) (acc : str) :
  hex_digits (S f) n acc
  = if (n / 16 =? 0)%N then hex_digit_upper (n mod 16) :: acc
    else hex_digits f (n / 16) (hex_digit_upper (n mod 16) :: acc).
Proof. reflexivity. Qed.

(** With enough fuel [hex_digits] prepends to [acc] the digits of [n]:
    at least one, at most [S k] when [n < 16 ^ S k], denoting [n], and
    without a leading zero unless [n] is zero. *)
Lemma hex_digits_spec (f : nat) :
  forall (n : N) (acc : str) (k : nat),
    (n < pow16 (S f))%N -> (n < pow16 (S k))%N ->
    exists ds,
      hex_digits (S f) n acc = ds ++ acc
      /\ (1 <= List.length ds <= S k)%nat
      /\ (forall a, hex_value_acc a ds
                    = Some (a * pow16 (List.length ds) + n)%N)
      /\ (n <> 0%N -> hd 0%N ds <> chr "0")
      /\ (n = 0%N -> ds = [chr "0"]).
Proof.
  assert (Hone : forall n r acc k, (n < 16)%N -> r = n ->
            exists ds, hex_digit_upper r :: acc = ds ++ acc
              /\ (1 <= List.length ds <= S k)%nat
              /\ (forall a, hex_value_acc a ds
                            = Some (a * pow16 (List.length ds) + n)%N)
              /\ (n <> 0%N -> hd 0%N ds <> chr "0")
              /\ (n = 0%N -> ds = [chr "0"])).
  { intros n r acc k Hn ->.
    exists [hex_digit_upper n].
    split; [reflexivity|]. split; [cbn [List.length]; lia|]. split; [|split].
    - intros a. cbn [hex_value_acc List.length].
      rewrite hex_digit_value_upper by assumption.
      f_equal. change (pow16 1) with 16%N. lia.
    - intros Hnz. cbn [hd]. apply hex_digit_upper_zero; assumption.
    - intros ->. reflexivity. }
  induction f as [|f IH]; intros n acc k Hf Hk.
  - rewrite hex_digits_S. cbn [hex_digits].
    destruct (div16 n) as (q & r & -> & -> & Hn & Hr).
    change (pow16 1) with 16%N in Hf.
    assert (Hq : q = 0%N) by lia. subst q. cbn [N.eqb].
    apply Hone; lia.
  - rewrite hex_digits_S.
    destruct (div16 n) as (q & r & -> & -> & Hn & Hr).
    destruct (N.eqb_spec q 0) as [Hq|Hq]; [apply Hone; lia|].
    rewrite pow16_S in Hf.
    destruct k as [|k]; [change (pow16 1) with 16%N in Hk; lia|].
    rewrite pow16_S in Hk.
    destruct (IH q (hex_digit_upper r :: acc) k)
      as (ds & Heq & Hlen & Hval & Hnz & _); [lia | lia |].
    exists (ds ++ [hex_digit_upper r]).
    rewrite Heq, <- app_assoc. split; [reflexivity|].
    rewrite length_app. cbn [List.length].
    split; [lia|]. split; [|split].
    + intros a. rewrite hex_value_acc_app, Hval. cbn [hex_value_acc].
      rewrite hex_digit_value_upper by assumption. f_equal.
      replace (List.length ds + 1)%nat with (S (List.length ds)) by lia.
      rewrite pow16_S. lia.
    + intros _. destruct ds as [|c ds]; [simpl in Hlen; lia|].
      simpl. apply Hnz; assumption.
    + intros ->. exfalso. lia.
Qed.

Lemma format_X_fuel (n : N) : (n < pow16 (S (N.to_nat (N.log2 n))))%N.
Proof.
  destruct (N.eq_dec n 0) as [->|Hn]; [apply pow16_pos|].
  unfold pow16. rewrite Nat2N.inj_succ, N2Nat.id.
  apply N.lt_le_trans with (2 ^ N.succ (N.log2 n))%N.
  - apply N.log2_spec. lia.
  - apply N.pow_le_mono_l. lia.
Qed.

(** ['{:X}'.format(n)] denotes [n] and has natural width. *)
Lemma format_X_spec (n : N) :
  hex_value (format_X n) = Some n
  /\ natural_width (format_X n)
  /\ (forall k, (n < pow16 (S k))%N -> (List.length (format_X n) <= S k)%nat).
Proof.
  unfold format_X, hex_value, natural_width.
  split; [|split].
  - destruct (hex_digits_spec (N.to_nat (N.log2 n)) n [] (N.to_nat (N.log2 n))
                (format_X_fuel n) (format_X_fuel n))
      as (ds & -> & _ & Hval & _).
    rewrite app_nil_r, Hval. reflexivity.
  - destruct (hex_digits_spec (N.to_nat (N.log2 n)) n [] (N.to_nat (N.log2 n))
                (format_X_fuel n) (format_X_fuel n))
      as (ds & -> & Hlen & _ & Hnz & Hz).
    rewrite app_nil_r. destruct (N.eq_dec n 0); [left; auto|].
    right. split; [|auto].
    intros ->. simpl in Hlen. lia.
  - intros k Hk.
    destruct (hex_digits_spec (N.to_nat (N.log2 n)) n [] k (format_X_fuel n) Hk)
      as (ds & -> & Hlen & _).
    rewrite app_nil_r. lia.
Qed.

Lemma hex_value_acc_zeros (m : nat) (s : str) :
  hex_value_acc 0 (repeat (chr "0") m ++ s) = hex_value_acc 0 s.
Proof. induction m as [|m IH]; [reflexivity | exact IH]. Qed.

(** ['{:0wX}'.format(n)] is exactly [w] digits that denote [n], when [n]
    fits in [w] digits. *)
Lemma format_0X_spec (w : nat) (n : N) :
  (n < pow16 (S w))%N ->
  List.length (format_0X (S w) n) = S w
  /\ hex_value (format_0X (S w) n) = Some n.
Proof.
  intros Hn. destruct (format_X_spec n) as (Hval & _ & Hlen).
  specialize (Hlen w Hn). unfold format_0X, hex_value. split.
  - rewrite length_app, repeat_length. lia.
  - rewrite hex_value_acc_zeros. exact Hval.
Qed.

(** [bs.hex().upper()] is two digits per byte, denoting the bytes. *)
Lemma upper_bytes_hex_spec (bs : bytes) :
  unhex (upper (bytes_hex bs)) = Some (List.map Byte.to_N bs)
  /\ List.length (upper (bytes_hex bs)) = (2 * List.length bs)%nat.
Proof.
  induction bs as [|x bs [IHv IHl]]; [split; reflexivity|].
  unfold upper, bytes_hex in *. cbn [flat_map List.map app List.length].
  pose proof (Byte.to_N_bounded x) as Hb.
  destruct (div16 (Byte.to_N x)) as (q & r & -> & -> & Hx & Hr).
  assert (Hq : (q < 16)%N) by lia.
  rewrite !upper_hex_digit_lower by assumption.
  split.
  - cbn [unhex]. rewrite !hex_digit_value_upper by assumption.
    rewrite IHv. f_equal. f_equal. lia.
  - rewrite IHl. lia.
Qed.

(** ** Decoding *)

Local Open Scope N_scope.

Lemma decode_cons (b0 : byte) (t0 : bytes) :
  decode (b0 :: t0)
  = let n0 := Byte.to_N b0 in
    if (n0 <? 128)%N then cons_opt n0 (decode t0)
    else if (n0 <? 194)%N then None
    else if (n0 <? 224)%N then
      match t0 with
      | b1 :: t1 =>
          let n1 := Byte.to_N b1 in
          if cont n1
          then cons_opt ((n0 - 192) * 64 + (n1 - 128))%N (decode t1)
          else None
      | _ => None
      end
    else if (n0 <? 240)%N then
      match t0 with
      | b1 :: b2 :: t2 =>
          let n1 := Byte.to_N b1 in
          let n2 := Byte.to_N b2 in
          if in_range (fst (second3 n0)) (snd (second3 n0)) n1 && cont n2
          then cons_opt ((n0 - 224) * 4096 + (n1 - 128) * 64 + (n2 - 128))%N
                        (decode t2)
          else None
      | _ => None
      end
    else if (n0 <? 245)%N then
      match t0 with
      | b1 :: b2 :: b3 :: t3 =>
          let n1 := Byte.to_N b1 in
          let n2 := Byte.to_N b2 in
          let n3 := Byte.to_N b3 in
          if in_range (fst (second4 n0)) (snd (second4 n0)) n1
             && cont n2 && cont n3
          then cons_opt ((n0 - 240) * 262144 + (n1 - 128) * 4096
                         + (n2 - 128) * 64 + (n3 - 128))%N
                        (decode t3)
          else None
      | _ => None
      end
    else None.
Proof. reflexivity. Qed.

Lemma cons_opt_Some (c : char) (r : option str) (s : str) :
  cons_opt c r = Some s -> exists s', r = Some s' /\ s = c :: s'.
Proof.
  destruct r as [s'|]; simpl; intros H; [|discriminate].
  exists s'. split; [reflexivity | congruence].
Qed.

(** Pure ASCII decodes to itself, byte by byte. *)
Lemma decode_ascii (bs : bytes) :
  Forall (fun x => (Byte.to_N x < 128)%N) bs ->
  decode bs = Some (List.map Byte.to_N bs).
Proof.
  induction 1 as [|x bs Hx _ IH]; [reflexivity|].
  rewrite decode_cons. cbv zeta.
  destruct (N.ltb_spec (Byte.to_N x) 128); [|lia].
  rewrite IH. reflexivity.
Qed.

Lemma cont_range (x : N) : cont x = true -> (128 <= x <= 191)%N.
Proof.
  unfold cont. rewrite andb_true_iff, !N.leb_le. tauto.
Qed.

Lemma in_range_spec (lo hi x : N) : in_range lo hi x = true -> (lo <= x <= hi)%N.
Proof.
  unfold in_range. rewrite andb_true_iff, !N.leb_le. tauto.
Qed.

Lemma second3_range (n0 n1 : N) :
  (224 <= n0)%N ->
  in_range (fst (second3 n0)) (snd (second3 n0)) n1 = true ->
  (128 <= n1 <= 191 /\ (n0 = 224 -> 160 <= n1))%N.
Proof.
  intros H0 H. apply in_range_spec in H. unfold second3 in H.
  destruct (N.eqb_spec n0 224); [simpl in H; lia|].
  destruct (N.eqb_spec n0 237); simpl in H; lia.
Qed.

Lemma second4_range (n0 n1 : N) :
  (240 <= n0 < 245)%N ->
  in_range (fst (second4 n0)) (snd (second4 n0)) n1 = true ->
  (128 <= n1 <= 191 /\ (n0 = 240 -> 144 <= n1))%N.
Proof.
  intros H0 H. apply in_range_spec in H. unfold second4 in H.
  destruct (N.eqb_spec n0 240); [simpl in H; lia|].
  destruct (N.eqb_spec n0 244); simpl in H; lia.
Qed.

Lemma div_mod_unique (c b q r : N) :
  (r < b)%N -> c = (b * q + r)%N -> (c / b = q /\ c mod b = r)%N.
Proof.
  intros Hr Hc. split; symmetry.
  - apply N.div_unique with r; assumption.
  - apply N.mod_unique with q; assumption.
Qed.

Lemma encode_char_2 (n0 n1 : N) :
  (194 <= n0 < 224)%N -> (128 <= n1 <= 191)%N ->
  encode_char ((n0 - 192) * 64 + (n1 - 128)) = [n0; n1].
Proof.
  intros H0 H1. unfold encode_char.
  destruct (div_mod_unique ((n0 - 192) * 64 + (n1 - 128)) 64 (n0 - 192) (n1 - 128))
    as [Hq Hr]; [lia | lia |].
  rewrite Hq, Hr.
  destruct (N.ltb_spec ((n0 - 192) * 64 + (n1 - 128)) 128); [lia|].
  destruct (N.ltb_spec ((n0 - 192) * 64 + (n1 - 128)) 2048); [|lia].
  f_equal; [lia|]. f_equal. lia.
Qed.

Lemma encode_char_3 (n0 n1 n2 : N) :
  (224 <= n0 < 240)%N -> (128 <= n1 <= 191)%N -> (n0 = 224 -> 160 <= n1)%N ->
  (128 <= n2 <= 191)%N ->
  encode_char ((n0 - 224) * 4096 + (n1 - 128) * 64 + (n2 - 128)) = [n0; n1; n2].
Proof.
  intros H0 H1 H1' H2. unfold encode_char.
  set (c := ((n0 - 224) * 4096 + (n1 - 128) * 64 + (n2 - 128))%N).
  destruct (div_mod_unique c 64 ((n0 - 224) * 64 + (n1 - 128)) (n2 - 128))
    as [Hq Hr]; [lia | unfold c; lia |].
  destruct (div_mod_unique ((n0 - 224) * 64 + (n1 - 128)) 64 (n0 - 224) (n1 - 128))
    as [_ Hr1]; [lia | lia |].
  destruct (div_mod_unique c 4096 (n0 - 224) ((n1 - 128) * 64 + (n2 - 128)))
    as [Hq2 _]; [lia | unfold c; lia |].
  rewrite Hq, Hr, Hr1, Hq2.
  destruct (N.ltb_spec c 128); [unfold c in *; lia|].
  destruct (N.ltb_spec c 2048); [unfold c in *; lia|].
  destruct (N.ltb_spec c 65536); [|unfold c in *; lia].
  f_equal; [lia|]. f_equal; [lia|]. f_equal. lia.
Qed.

Lemma encode_char_4 (n0 n1 n2 n3 : N) :
  (240 <= n0 < 245)%N -> (128 <= n1 <= 191)%N -> (n0 = 240 -> 144 <= n1)%N ->
  (128 <= n2 <= 191)%N -> (128 <= n3 <= 191)%N ->
  encode_char ((n0 - 240) * 262144 + (n1 - 128) * 4096
               + (n2 - 128) * 64 + (n3 - 128)) = [n0; n1; n2; n3].
Proof.
  intros H0 H1 H1' H2 H3. unfold encode_char.
  set (c := ((n0 - 240) * 262144 + (n1 - 128) * 4096
             + (n2 - 128) * 64 + (n3 - 128))%N).
  destruct (div_mod_unique c 64
              ((n0 - 240) * 4096 + (n1 - 128) * 64 + (n2 - 128)) (n3 - 128))
    as [Hq Hr]; [lia | unfold c; lia |].
  destruct (div_mod_unique ((n0 - 240) * 4096 + (n1 - 128) * 64 + (n2 - 128)) 64
              ((n0 - 240) * 64 + (n1 - 128)) (n2 - 128))
    as [_ Hr1]; [lia | lia |].
  destruct (div_mod_unique c 4096 ((n0 - 240) * 64 + (n1 - 128))
              ((n2 - 128) * 64 + (n3 - 128)))
    as [Hq2 _]; [lia | unfold c; lia |].
  destruct (div_mod_unique ((n0 - 240) * 64 + (n1 - 128)) 64 (n0 - 240) (n1 - 128))
    as [_ Hr2]; [lia | lia |].
  destruct (div_mod_unique c 262144 (n0 - 240)
              ((n1 - 128) * 4096 + (n2 - 128) * 64 + (n3 - 128)))
    as [Hq3 _]; [lia | unfold c; lia |].
  rewrite Hq, Hr, Hr1, Hq2, Hr2, Hq3.
  destruct (N.ltb_spec c 128); [unfold c in *; lia|].
  destruct (N.ltb_spec c 2048); [unfold c in *; lia|].
  destruct (N.ltb_spec c 65536); [unfold c in *; lia|].
  f_equal; [lia|]. f_equal; [lia|]. f_equal; [lia|]. f_equal. lia.
Qed.

(** Decoding loses nothing: encoding the decoded text gives back the
    bytes. *)
Lemma decode_encode_upto (n : nat) :
  forall (bs : bytes) (s : str),
    (List.length bs <= n)%nat ->
    decode bs = Some s -> encode s = List.map Byte.to_N bs.
Proof.
  induction n as [|n IH]; intros bs s Hlen Hd.
  - destruct bs; [|simpl in Hlen; lia]. inversion Hd. reflexivity.
  - destruct bs as [|b0 t0]; [inversion Hd; reflexivity|].
    rewrite decode_cons in Hd. cbv zeta in Hd. cbn [List.length] in Hlen.
    destruct (N.ltb_spec (Byte.to_N b0) 128) as [Ha|Ha].
    { apply cons_opt_Some in Hd. destruct Hd as (s' & Hs' & ->).
      cbn [encode flat_map List.map]. fold (encode s').
      rewrite (IH t0 s') by (assumption || lia).
      unfold encode_char. destruct (N.ltb_spec (Byte.to_N b0) 128); [|lia].
      reflexivity. }
    destruct (N.ltb_spec (Byte.to_N b0) 194) as [Hb|Hb]; [discriminate|].
    destruct (N.ltb_spec (Byte.to_N b0) 224) as [Hc|Hc].
    { destruct t0 as [|b1 t1]; [discriminate|].
      destruct (cont (Byte.to_N b1)) eqn:E1; [|discriminate].
      apply cont_range in E1.
      apply cons_opt_Some in Hd. destruct Hd as (s' & Hs' & ->).
      cbn [encode flat_map List.map]. fold (encode s').
      cbn [List.length] in Hlen.
      rewrite (IH t1 s') by (assumption || lia).
      rewrite encode_char_2 by lia. reflexivity. }
    destruct (N.ltb_spec (Byte.to_N b0) 240) as [Hd3|Hd3].
    { destruct t0 as [|b1 [|b2 t2]]; try discriminate.
      destruct (in_range _ _ (Byte.to_N b1)) eqn:E1; [|discriminate].
      destruct (cont (Byte.to_N b2)) eqn:E2; [|discriminate].
      apply second3_range in E1; [|assumption]. apply cont_range in E2.
      cbn [andb] in Hd.
      apply cons_opt_Some in Hd. destruct Hd as (s' & Hs' & ->).
      cbn [encode flat_map List.map]. fold (encode s').
      cbn [List.length] in Hlen.
      rewrite (IH t2 s') by (assumption || lia).
      rewrite encode_char_3 by (tauto || lia). reflexivity. }
    destruct (N.ltb_spec (Byte.to_N b0) 245) as [Hd4|Hd4]; [|discriminate].
    destruct t0 as [|b1 [|b2 [|b3 t3]]]; try discriminate.
    destruct (in_range _ _ (Byte.to_N b1)) eqn:E1; [|discriminate].
    destruct (cont (Byte.to_N b2)) eqn:E2; [|discriminate].
    destruct (cont (Byte.to_N b3)) eqn:E3; [|discriminate].
    apply second4_range in E1; [|lia].
    apply cont_range in E2. apply cont_range in E3.
    cbn [andb] in Hd.
    apply cons_opt_Some in Hd. destruct Hd as (s' & Hs' & ->).
    cbn [encode flat_map List.map]. fold (encode s').
    cbn [List.length] in Hlen.
    rewrite (IH t3 s') by (assumption || lia).
    rewrite encode_char_4 by (tauto || lia). reflexivity.
Qed.

Lemma decode_encode (bs : bytes) (s : str) :
  decode bs = Some s -> encode s = List.map Byte.to_N bs.
Proof. apply (decode_encode_upto (List.length bs)). apply Nat.le_refl. Qed.

Local Close Scope N_scope.

(** ** The steps of [extract_pdb_info] *)

Lemma last_byte_snoc (init : bytes) (x : byte) : last_byte (init ++ [x]) = Some x.
Proof.
  induction init as [|y t IH]; [reflexivity|].
  cbn [app last_byte]. rewrite IH.
  destruct (t ++ [x]) eqn:E; [destruct t; discriminate | reflexivity].
Qed.

Lemma drop_last_snoc {A : Type} (init : list A) (x : A) :
  drop_last (init ++ [x]) = init.
Proof. apply removelast_last. Qed.

Section ExtractSteps.

Variable pefile_PE : bytes -> result PE.
Variables (pe_data : bytes) (pe : PE) (o : entry_obj).
Hypothesis Hparse : pefile_PE pe_data = Return pe.
Hypothesis Hfirst : first_entry pe = Some o.

(** Once the image is parsed and has a first entry, the outcome is
    that of the attribute reads, the tag dispatch and the file-name
    steps on it. *)
Lemma extract_first :
  extract_pdb_info pefile_PE pe_data
  = (tag <- get_CvSignature o ;;
     signature <-
       (if bytes_eqb tag (blit "RSDS")
        then
          d1 <- get_Signature_Data1 o ;;
          d2 <- get_Signature_Data2 o ;;
          d3 <- get_Signature_Data3 o ;;
          d4 <- get_Signature_Data4 o ;;
          d5 <- get_Signature_Data5 o ;;
          d6 <- get_Signature_Data6 o ;;
          age <- get_Age o ;;
          Return (format_signature d1 d2 d3 d4 d5 d6 age)
        else if bytes_eqb tag (blit "01BN")
        then Raise (Exception (lit "found"))
        else Raise (UnsupportedDebugEntryTypeError tag)) ;;
     pdbfilename <- get_PdbFileName o ;;
     pdbfilename <-
       match last_byte pdbfilename with
       | None => Raise IndexError
       | Some x =>
           Return (if Byte.eqb x x00 then drop_last pdbfilename
                   else pdbfilename)
       end ;;
     match decode pdbfilename with
     | Some name => Return {| pdb_signature := signature; pdbfilename := name |}
     | None => Raise UnicodeDecodeError
     end).
Proof.
  unfold extract_pdb_info. rewrite Hparse. cbn [bind].
  unfold first_entry in Hfirst.
  destruct (DIRECTORY_ENTRY_DEBUG pe) as [[|d ds]|]; try discriminate.
  inversion Hfirst; subst. reflexivity.
Qed.

(** An entry without the attribute [CvSignature] stops the extraction
    at line 61. *)
Lemma extract_no_CvSignature :
  get_CvSignature o = Raise AttributeError ->
  extract_pdb_info pefile_PE pe_data = Raise AttributeError.
Proof.
  intros H. rewrite extract_first, H. reflexivity.
Qed.

Lemma extract_rsds (e : CV_INFO_PDB70) :
  o = PDB70 e ->
  CvSignature e = blit "RSDS" ->
  extract_pdb_info pefile_PE pe_data
  = match PdbFileName e with
    | None => Raise AttributeError
    | Some name =>
        match last_byte name with
        | None => Raise IndexError
        | Some x =>
            match decode (if Byte.eqb x x00 then drop_last name else name) with
            | Some text =>
                Return {| pdb_signature := rsds_signature e; pdbfilename := text |}
            | None => Raise UnicodeDecodeError
            end
        end
    end.
Proof.
  intros Ho Htag. rewrite extract_first, Ho.
  cbn [get_CvSignature bind]. rewrite Htag.
  replace (bytes_eqb (blit "RSDS") (blit "RSDS")) with true by reflexivity.
  cbn [get_Signature_Data1 get_Signature_Data2 get_Signature_Data3
       get_Signature_Data4 get_Signature_Data5 get_Signature_Data6 get_Age
       get_PdbFileName bind].
  fold (rsds_signature e).
  destruct (PdbFileName e) as [name|]; [|reflexivity].
  cbn [bind]. destruct (last_byte name); reflexivity.
Qed.


(** The [else] branch of line 73, for a structure that carries another
    tag as its [CvSignature]; [pefile] builds none (lemma
    [pefile_codeview_PDB70] below). *)
Lemma extract_other_tag (e : CV_INFO_PDB70) :
  o = PDB70 e ->
  CvSignature e <> blit "RSDS" -> CvSignature e <> blit "01BN" ->
  extract_pdb_info pefile_PE pe_data
  = Raise (UnsupportedDebugEntryTypeError (CvSignature e)).
Proof.
  intros Ho H1 H2. rewrite extract_first, Ho.
  cbn [get_CvSignature bind].
  rewrite (bytes_eqb_neq _ _ H1), (bytes_eqb_neq _ _ H2). reflexivity.
Qed.

(** A returned identity comes from a [CV_INFO_PDB70] structure tagged
    RSDS. *)
Lemma extract_Return_rsds (info : PdbInfo) :
  extract_pdb_info pefile_PE pe_data = Return info ->
  exists e, o = PDB70 e /\ CvSignature e = blit "RSDS".
Proof.
  rewrite extract_first.
  destruct o as [|e|r|]; try discriminate.
  cbn [get_CvSignature bind].
  destruct (bytes_eqb (CvSignature e) (blit "RSDS")) eqn:E1.
  - intros _. exists e. split; [reflexivity|]. apply bytes_eqb_eq. exact E1.
  - destruct (bytes_eqb (CvSignature e) (blit "01BN")); discriminate.
Qed.

(** The outcome for an RSDS entry with a non-empty file name. *)
Lemma extract_rsds_snoc (e : CV_INFO_PDB70) (init : bytes) (x : byte) :
  o = PDB70 e ->
  CvSignature e = blit "RSDS" ->
  PdbFileName e = Some (init ++ [x]) ->
  extract_pdb_info pefile_PE pe_data
  = match decode (if Byte.eqb x x00 then init else init ++ [x]) with
    | Some name =>
        Return {| pdb_signature := rsds_signature e; pdbfilename := name |}
    | None => Raise UnicodeDecodeError
    end.
Proof.
  intros Ho Htag Hfn. rewrite (extract_rsds e Ho Htag), Hfn.
  rewrite last_byte_snoc, drop_last_snoc. reflexivity.
Qed.

End ExtractSteps.

(** ** What [pefile] builds *)

Lemma bytes_eqb_refl (x : bytes) : bytes_eqb x x = true.
Proof. apply bytes_eqb_eq. reflexivity. Qed.

(** The sample record decodes to the sample entry. *)
Lemma pefile_codeview_rsds_data : pefile_codeview rsds_data = PDB70 spec_entry.
Proof. reflexivity. Qed.

(** Data that do not begin with RSDS give an entry without the
    attribute [CvSignature]. *)
Lemma pefile_codeview_not_rsds (data : bytes) :
  firstn 4 data <> blit "RSDS" ->
  get_CvSignature (pefile_codeview data) = Raise AttributeError.
Proof.
  intros H. unfold pefile_codeview. rewrite (bytes_eqb_neq _ _ H).
  destruct (bytes_eqb (firstn 4 data) (blit "NB10")); [|reflexivity].
  destruct (List.length data <? 16)%nat; reflexivity.
Qed.

(** An RSDS record of 24 bytes, that is without file-name bytes, gives
    a structure without the attribute [PdbFileName]. *)
Lemma pefile_codeview_no_name (data : bytes) :
  firstn 4 data = blit "RSDS" ->
  List.length data = 24%nat ->
  exists e,
    pefile_codeview data = PDB70 e
    /\ CvSignature e = blit "RSDS" /\ PdbFileName e = None.
Proof.
  intros Htag Hlen. unfold pefile_codeview.
  rewrite Htag, bytes_eqb_refl, Hlen. cbn [Nat.ltb Nat.leb].
  eexists. split; [reflexivity|]. cbn [CvSignature PdbFileName].
  split; [|reflexivity].
  unfold sub_bytes. cbn [skipn Nat.sub]. exact Htag.
Qed.

Lemma le_uint_bound (bs : bytes) :
  (le_uint bs < 256 ^ N.of_nat (List.length bs))%N.
Proof.
  induction bs as [|x t IH]; [reflexivity|].
  cbn [le_uint List.length]. rewrite Nat2N.inj_succ, N.pow_succ_r'.
  pose proof (Byte.to_N_bounded x). lia.
Qed.

Lemma le_uint_sub_bytes (data : bytes) (a k : nat) :
  (le_uint (sub_bytes data a (a + k)) < 256 ^ N.of_nat k)%N.
Proof.
  unfold sub_bytes. replace (a + k - a)%nat with k by lia.
  eapply N.lt_le_trans; [apply le_uint_bound|].
  apply N.pow_le_mono_r; [discriminate|].
  pose proof (firstn_le_length k (skipn a data)). lia.
Qed.

Lemma skipn_nonempty {A : Type} (n : nat) (l : list A) :
  (n < List.length l)%nat -> skipn n l <> [].
Proof.
  intros H E. pose proof (length_skipn n l) as L. rewrite E in L.
  cbn [List.length] in L. lia.
Qed.

(** The structure that pefile builds for an RSDS record is tagged RSDS,
    has its fields in range, and has no empty [PdbFileName]. *)
Lemma pefile_codeview_PDB70 (data : bytes) (e : CV_INFO_PDB70) :
  pefile_codeview data = PDB70 e ->
  CvSignature e = blit "RSDS"
  /\ rsds_fields_in_range e
  /\ (Age e < 2 ^ 32)%N
  /\ PdbFileName e <> Some [].
Proof.
  unfold pefile_codeview.
  destruct (bytes_eqb (firstn 4 data) (blit "RSDS")) eqn:Etag.
  2:{ destruct (bytes_eqb (firstn 4 data) (blit "NB10"));
        [destruct (List.length data <? 16)%nat|]; discriminate. }
  apply bytes_eqb_eq in Etag.
  destruct (Nat.ltb_spec (List.length data) 24) as [|Hlen]; [discriminate|].
  intros [= <-].
  cbn [CvSignature PdbFileName Age]. unfold rsds_fields_in_range.
  cbn [Signature_Data1 Signature_Data2 Signature_Data3 Signature_Data4
       Signature_Data5 Signature_Data6].
  split; [exact Etag|]. split; [|split].
  - split; [exact (le_uint_sub_bytes data 4 4)|].
    split; [exact (le_uint_sub_bytes data 8 2)|].
    split; [exact (le_uint_sub_bytes data 10 2)|].
    split; [exact (le_uint_sub_bytes data 12 1)|].
    split; [exact (le_uint_sub_bytes data 13 1)|].
    unfold sub_bytes. rewrite length_firstn, length_skipn. lia.
  - exact (le_uint_sub_bytes data 20 4).
  - destruct (Nat.ltb_spec 24 (List.length data)) as [Hgt|]; [|discriminate].
    change (Some (skipn 24 data) <> Some []). intros E.
    apply (skipn_nonempty 24 data Hgt). congruence.
Qed.

(** For data that do not begin with RSDS, and for an RSDS record of
    at most 24 bytes, the extraction ends with [AttributeError]. *)
Lemma extract_pefile_attribute_error (pefile_PE : bytes -> result PE)
      (pe_data : bytes) (pe : PE) (data : bytes) :
  pefile_PE pe_data = Return pe ->
  first_entry pe = Some (pefile_codeview data) ->
  firstn 4 data <> blit "RSDS" \/ (List.length data <= 24)%nat ->
  extract_pdb_info pefile_PE pe_data = Raise AttributeError.
Proof.
  intros Hparse Hfirst H.
  destruct (bytes_eqb (firstn 4 data) (blit "RSDS")) eqn:Etag.
  - apply bytes_eqb_eq in Etag.
    destruct H as [H|Hlen]; [contradiction|].
    destruct (Nat.eq_dec (List.length data) 24) as [E24|N24].
    + destruct (pefile_codeview_no_name data Etag E24) as (e & He & Hsig & Hfn).
      rewrite He in Hfirst.
      rewrite (extract_rsds pefile_PE pe_data pe (PDB70 e) Hparse Hfirst e
                 eq_refl Hsig), Hfn.
      reflexivity.
    + apply (extract_no_CvSignature pefile_PE pe_data pe _ Hparse Hfirst).
      unfold pefile_codeview. rewrite Etag, bytes_eqb_refl.
      destruct (Nat.ltb_spec (List.length data) 24); [reflexivity | lia].
  - apply (extract_no_CvSignature pefile_PE pe_data pe _ Hparse Hfirst).
    apply pefile_codeview_not_rsds. intros E. rewrite E in Etag. discriminate.
Qed.

(** ** The composition of the signature *)

(** The seven parts of the signature of an entry whose fields are in
    range: fixed-width digits for the five integers, two digits per byte
    of [Signature_Data6], and [Age] at its natural width. *)
Lemma rsds_signature_parts (e : CV_INFO_PDB70) :
  rsds_fields_in_range e ->
  exists s1 s2 s3 s4 s5 s6 sa,
    rsds_signature e = s1 ++ s2 ++ s3 ++ s4 ++ s5 ++ s6 ++ sa
    /\ (List.length s1 = 8 /\ hex_value s1 = Some (Signature_Data1 e))
    /\ (List.length s2 = 4 /\ hex_value s2 = Some (Signature_Data2 e))
    /\ (List.length s3 = 4 /\ hex_value s3 = Some (Signature_Data3 e))
    /\ (List.length s4 = 2 /\ hex_value s4 = Some (Signature_Data4 e))
    /\ (List.length s5 = 2 /\ hex_value s5 = Some (Signature_Data5 e))
    /\ (List.length s6 = 12
        /\ unhex s6 = Some (List.map Byte.to_N (Signature_Data6 e)))
    /\ (hex_value sa = Some (Age e) /\ natural_width sa).
Proof.
  intros (H1 & H2 & H3 & H4 & H5 & H6).
  exists (format_0X 8 (Signature_Data1 e)), (format_0X 4 (Signature_Data2 e)),
         (format_0X 4 (Signature_Data3 e)), (format_0X 2 (Signature_Data4 e)),
         (format_0X 2 (Signature_Data5 e)),
         (upper (bytes_hex (Signature_Data6 e))), (format_X (Age e)).
  split; [reflexivity|].
  split; [apply format_0X_spec; assumption|].
  split; [apply format_0X_spec; assumption|].
  split; [apply format_0X_spec; assumption|].
  split; [apply format_0X_spec; assumption|].
  split; [apply format_0X_spec; assumption|].
  split.
  - split; [|apply upper_bytes_hex_spec].
    rewrite (proj2 (upper_bytes_hex_spec _)), H6. reflexivity.
  - split; apply format_X_spec.
Qed.

(** C1. For every debug entry tagged "RSDS" (fields in the ranges that
    pefile unpacks), the signature of the identity that
    extract_pdb_info returns is the concatenation, without separators,
    of Data1 as 8 upper-case hexadecimal digits, Data2 as 4, Data3 as 4,
    Data4 as 2, Data5 as 2, the 6 bytes of Data6 as 12 upper-case
    hexadecimal digits, and Age in upper-case hexadecimal at its natural
    width (at least one digit, no zero in front); and the record of the
    specification's example, as pefile decodes it, yields exactly
    9C85A7373CC2BC2A7AB9C9388952B8F81. *)
Theorem extract_signature_format :
  (forall (pefile_PE : bytes -> result PE) (pe_data : bytes) (pe : PE)
          (e : CV_INFO_PDB70) (info : PdbInfo),
      pefile_PE pe_data = Return pe ->
      first_entry pe = Some (PDB70 e) ->
      CvSignature e = blit "RSDS" ->
      rsds_fields_in_range e ->
      extract_pdb_info pefile_PE pe_data = Return info ->
      exists s1 s2 s3 s4 s5 s6 sa,
        pdb_signature info = s1 ++ s2 ++ s3 ++ s4 ++ s5 ++ s6 ++ sa
        /\ (List.length s1 = 8 /\ hex_value s1 = Some (Signature_Data1 e))
        /\ (List.length s2 = 4 /\ hex_value s2 = Some (Signature_Data2 e))
        /\ (List.length s3 = 4 /\ hex_value s3 = Some (Signature_Data3 e))
        /\ (List.length s4 = 2 /\ hex_value s4 = Some (Signature_Data4 e))
        /\ (List.length s5 = 2 /\ hex_value s5 = Some (Signature_Data5 e))
        /\ (List.length s6 = 12
            /\ unhex s6 = Some (List.map Byte.to_N (Signature_Data6 e)))
        /\ (hex_value sa = Some (Age e) /\ natural_width sa))
  /\ (exists name,
        extract_pdb_info (parsed_as (image_with (pefile_codeview rsds_data))) []
        = Return {| pdb_signature := lit "9C85A7373CC2BC2A7AB9C9388952B8F81";
                    pdbfilename := name |}).
Proof.
  split.
  - intros pefile_PE pe_data pe e info Hparse Hfirst Htag Hrange Hret.
    rewrite (extract_rsds pefile_PE pe_data pe (PDB70 e) Hparse Hfirst e
               eq_refl Htag) in Hret.
    assert (Hsig : pdb_signature info = rsds_signature e).
    { destruct (PdbFileName e) as [name|]; [|discriminate].
      destruct (last_byte name); [|discriminate].
      destruct (decode _); [|discriminate].
      inversion Hret. reflexivity. }
    rewrite Hsig. apply rsds_signature_parts. exact Hrange.
  - eexists. vm_compute. reflexivity.
Qed.

Lemma extract_signature_format_witness :
  exists s1 s2 s3 s4 s5 s6 sa,
    lit "9C85A7373CC2BC2A7AB9C9388952B8F81"
    = s1 ++ s2 ++ s3 ++ s4 ++ s5 ++ s6 ++ sa
    /\ (List.length s1 = 8 /\ hex_value s1 = Some 0x9C85A737%N)
    /\ (List.length s2 = 4 /\ hex_value s2 = Some 0x3CC2%N)
    /\ (List.length s3 = 4 /\ hex_value s3 = Some 0xBC2A%N)
    /\ (List.length s4 = 2 /\ hex_value s4 = Some 0x7A%N)
    /\ (List.length s5 = 2 /\ hex_value s5 = Some 0xB9%N)
    /\ (List.length s6 = 12
        /\ unhex s6 = Some [0xC9; 0x38; 0x89; 0x52; 0xB8; 0xF8]%N)
    /\ (hex_value sa = Some 1%N /\ natural_width sa).
Proof.
  apply (proj1 extract_signature_format
           (parsed_as (image_of spec_entry)) [] (image_of spec_entry) spec_entry
           {| pdb_signature := lit "9C85A7373CC2BC2A7AB9C9388952B8F81";
              pdbfilename := lit "C:\sym\vcruntime140_1.amd64.pdb" |}).
  - reflexivity.
  - reflexivity.
  - reflexivity.
  - unfold rsds_fields_in_range. simpl. repeat split; lia.
  - vm_compute. reflexivity.
Defined.

(** ** The tag dispatch *)




(** C4. For every image whose debug-directory table is absent or has no
    entry, extract_pdb_info fails with [NoDebugEntryException], and with
    nothing else. *)
Theorem extract_no_debug_entry :
  forall (pefile_PE : bytes -> result PE) (pe_data : bytes) (pe : PE),
    pefile_PE pe_data = Return pe ->
    DIRECTORY_ENTRY_DEBUG pe = None \/ DIRECTORY_ENTRY_DEBUG pe = Some [] ->
    extract_pdb_info pefile_PE pe_data = Raise NoDebugEntryException.
Proof.
  intros pefile_PE pe_data pe Hparse Hdir.
  unfold extract_pdb_info. rewrite Hparse. cbn [bind].
  destruct Hdir as [-> | ->]; reflexivity.
Qed.

Lemma extract_no_debug_entry_witness :
  extract_pdb_info (parsed_as {| DIRECTORY_ENTRY_DEBUG := Some [] |}) []
  = Raise NoDebugEntryException
  /\ extract_pdb_info (parsed_as {| DIRECTORY_ENTRY_DEBUG := None |}) []
     = Raise NoDebugEntryException.
Proof.
  split.
  - apply (extract_no_debug_entry
             (parsed_as {| DIRECTORY_ENTRY_DEBUG := Some [] |}) []
             {| DIRECTORY_ENTRY_DEBUG := Some [] |});
      [reflexivity | right; reflexivity].
  - apply (extract_no_debug_entry
             (parsed_as {| DIRECTORY_ENTRY_DEBUG := None |}) []
             {| DIRECTORY_ENTRY_DEBUG := None |});
      [reflexivity | left; reflexivity].
Defined.

(** C5 does not hold of the program: for every debug entry that pefile
    builds from CodeView data whose tag is not "RSDS" (so for every tag
    that is neither "RSDS" nor "01BN"), reading [CvSignature] at line 61
    raises [AttributeError], and the
    [UnsupportedDebugEntryTypeError] of line 74 is never raised. *)
Theorem extract_other_tag_attribute_error :
  forall (pefile_PE : bytes -> result PE) (pe_data : bytes) (pe : PE)
         (data : bytes),
    pefile_PE pe_data = Return pe ->
    first_entry pe = Some (pefile_codeview data) ->
    firstn 4 data <> blit "RSDS" ->
    extract_pdb_info pefile_PE pe_data = Raise AttributeError
    /\ extract_pdb_info pefile_PE pe_data
       <> Raise (UnsupportedDebugEntryTypeError (firstn 4 data)).
Proof.
  intros pefile_PE pe_data pe data Hparse Hfirst Htag.
  rewrite (extract_no_CvSignature pefile_PE pe_data pe _ Hparse Hfirst
             (pefile_codeview_not_rsds data Htag)).
  split; [reflexivity | discriminate].
Qed.

Lemma extract_other_tag_attribute_error_witness :
  extract_pdb_info (parsed_as (image_with (pefile_codeview nb10_data))) []
  = Raise AttributeError
  /\ extract_pdb_info (parsed_as (image_with (pefile_codeview nb10_data))) []
     <> Raise (UnsupportedDebugEntryTypeError (firstn 4 nb10_data)).
Proof.
  apply (extract_other_tag_attribute_error
           (parsed_as (image_with (pefile_codeview nb10_data))) []
           (image_with (pefile_codeview nb10_data)) nb10_data);
    [reflexivity | reflexivity | discriminate].
Defined.

(** ** [basename] *)

Lemma is_sep_dec (c : char) : {is_sep c} + {~ is_sep c}.
Proof.
  unfold is_sep.
  destruct (N.eq_dec c (chr "/")); [left; left; assumption|].
  destruct (N.eq_dec c (chr "\")); [left; right; assumption|].
  right. tauto.
Qed.

(** Every name is free of separators or splits at its last one. *)
Lemma last_sep_split (name : str) :
  no_sep name
  \/ exists pre c post, name = pre ++ c :: post /\ is_sep c /\ no_sep post.
Proof.
  induction name as [|x t IH]; [left; constructor|].
  destruct IH as [Ht | (pre & c & post & -> & Hc & Hpost)].
  - destruct (is_sep_dec x) as [Hx|Hx].
    + right. exists [], x, t. auto.
    + left. constructor; assumption.
  - right. exists (x :: pre), c, post. auto.
Qed.

(** C3. For every file name, basename returns the name itself when it
    holds neither '/' nor '\', and otherwise the part after the last
    '/' or '\'; it is a function of the string alone, so the Windows
    path and the POSIX path of the specification's example both give
    vcruntime140_1.amd64.pdb. *)
Theorem basename_after_last_separator :
  (forall sg name : str,
      (no_sep name
       /\ basename {| pdb_signature := sg; pdbfilename := name |} = name)
      \/ (exists pre c post,
             name = pre ++ c :: post /\ is_sep c /\ no_sep post
             /\ basename {| pdb_signature := sg; pdbfilename := name |} = post))
  /\ (forall sg : str,
         basename {| pdb_signature := sg;
                     pdbfilename := lit "C:\sym\vcruntime140_1.amd64.pdb" |}
         = lit "vcruntime140_1.amd64.pdb"
         /\ basename {| pdb_signature := sg;
                        pdbfilename := lit "/sym/vcruntime140_1.amd64.pdb" |}
            = lit "vcruntime140_1.amd64.pdb").
Proof.
  split.
  - intros sg name.
    destruct (last_sep_split name) as [Hn | (pre & c & post & -> & Hc & Hpost)].
    + left. split; [assumption|]. apply basename_no_sep.
      apply Forall_forall. assumption.
    + right. exists pre, c, post. repeat split; try assumption.
      apply basename_last_sep; [assumption|].
      apply Forall_forall. assumption.
  - intros sg. split; reflexivity.
Qed.

(** ** The file name *)

(** C9. For every non-empty embedded file name, with last byte [x],
    the bytes that extract_pdb_info decodes are the name without [x] if
    [x] is the null byte and the whole name otherwise: every returned
    identity holds the decoding of exactly these bytes (and encodes back
    to them, so that no other byte is lost), and for an "RSDS" entry
    the identity is returned whenever they decode. *)
Theorem extract_filename_drops_trailing_null :
  forall (pefile_PE : bytes -> result PE) (pe_data : bytes) (pe : PE)
         (e : CV_INFO_PDB70) (init : bytes) (x : byte),
    pefile_PE pe_data = Return pe ->
    first_entry pe = Some (PDB70 e) ->
    PdbFileName e = Some (init ++ [x]) ->
    exists kept : bytes,
      ((x = x00 /\ kept = init) \/ (x <> x00 /\ Some kept = PdbFileName e))
      /\ (forall info,
             extract_pdb_info pefile_PE pe_data = Return info ->
             decode kept = Some (pdbfilename info)
             /\ encode (pdbfilename info) = List.map Byte.to_N kept)
      /\ (CvSignature e = blit "RSDS" ->
          forall name,
            decode kept = Some name ->
            extract_pdb_info pefile_PE pe_data
            = Return {| pdb_signature := rsds_signature e;
                        pdbfilename := name |}).
Proof.
  intros pefile_PE pe_data pe e init x Hparse Hfirst Hfn.
  exists (if Byte.eqb x x00 then init else init ++ [x]).
  split; [|split].
  - destruct (Byte.eqb x x00) eqn:E.
    + left. split; [apply Byte.byte_dec_bl; exact E | reflexivity].
    + right. split; [apply Byte.eqb_false; exact E | symmetry; exact Hfn].
  - intros info Hret.
    destruct (extract_Return_rsds pefile_PE pe_data pe (PDB70 e) Hparse Hfirst
                info Hret) as (e' & He' & Htag).
    inversion He'; subst e'.
    rewrite (extract_rsds_snoc pefile_PE pe_data pe (PDB70 e) Hparse Hfirst
               e init x eq_refl Htag Hfn) in Hret.
    destruct (decode (if Byte.eqb x x00 then init else init ++ [x]))
      as [name|] eqn:Hdec; [|discriminate].
    inversion Hret; subst info. cbn [pdbfilename].
    split; [reflexivity|]. apply decode_encode. exact Hdec.
  - intros Htag name Hdec.
    rewrite (extract_rsds_snoc pefile_PE pe_data pe (PDB70 e) Hparse Hfirst
               e init x eq_refl Htag Hfn).
    rewrite Hdec. reflexivity.
Qed.

Lemma extract_filename_drops_trailing_null_witness :
  exists kept : bytes,
    ((x00 = x00 /\ kept = blit "C:\sym\vcruntime140_1.amd64.pdb")
     \/ (x00 <> x00 /\ Some kept = PdbFileName spec_entry))
    /\ (forall info,
           extract_pdb_info (parsed_as (image_of spec_entry)) [] = Return info ->
           decode kept = Some (pdbfilename info)
           /\ encode (pdbfilename info) = List.map Byte.to_N kept)
    /\ (CvSignature spec_entry = blit "RSDS" ->
        forall name,
          decode kept = Some name ->
          extract_pdb_info (parsed_as (image_of spec_entry)) []
          = Return {| pdb_signature := rsds_signature spec_entry;
                      pdbfilename := name |}).
Proof.
  apply (extract_filename_drops_trailing_null
           (parsed_as (image_of spec_entry)) [] (image_of spec_entry) spec_entry
           (blit "C:\sym\vcruntime140_1.amd64.pdb") x00);
    reflexivity.
Defined.

(** C10, as stated, fails: for an RSDS record without file-name bytes
    pefile gives the entry no attribute [PdbFileName], so that the read
    of line 76 raises [AttributeError] and the null-terminator check of
    line 79 is never reached. *)
Lemma extract_empty_filename_not_IndexError :
  firstn 4 rsds_header = blit "RSDS"
  /\ skipn 24 rsds_header = []
  /\ extract_pdb_info (parsed_as (image_with (pefile_codeview rsds_header))) []
     = Raise AttributeError
  /\ extract_pdb_info (parsed_as (image_with (pefile_codeview rsds_header))) []
     <> Raise IndexError.
Proof.
  split; [reflexivity|]. split; [reflexivity|]. split; [reflexivity|].
  discriminate.
Qed.

(** C10, amended. If the embedded file-name field of the first debug
    entry, an RSDS record as pefile decodes it, is empty (zero bytes),
    extract_pdb_info returns no identity and no classified extraction
    failure: the entry has no attribute [PdbFileName], and reading it
    at line 76 raises [AttributeError], which is no
    [ExtractPdbException]. *)
Theorem extract_empty_filename :
  forall (pefile_PE : bytes -> result PE) (pe_data : bytes) (pe : PE)
         (data : bytes),
    pefile_PE pe_data = Return pe ->
    first_entry pe = Some (pefile_codeview data) ->
    firstn 4 data = blit "RSDS" ->
    List.length data = 24%nat ->
    skipn 24 data = []
    /\ extract_pdb_info pefile_PE pe_data = Raise AttributeError
    /\ is_ExtractPdbException AttributeError = false
    /\ (forall info, extract_pdb_info pefile_PE pe_data <> Return info).
Proof.
  intros pefile_PE pe_data pe data Hparse Hfirst Htag Hlen.
  split; [apply skipn_all2; lia|].
  destruct (pefile_codeview_no_name data Htag Hlen) as (e & He & Hsig & Hfn).
  rewrite He in Hfirst.
  rewrite (extract_rsds pefile_PE pe_data pe (PDB70 e) Hparse Hfirst e
             eq_refl Hsig), Hfn.
  split; [reflexivity|]. split; [reflexivity | discriminate].
Qed.

Lemma extract_empty_filename_witness :
  skipn 24 rsds_header = []
  /\ extract_pdb_info (parsed_as (image_with (pefile_codeview rsds_header))) []
     = Raise AttributeError
  /\ is_ExtractPdbException AttributeError = false
  /\ (forall info,
         extract_pdb_info (parsed_as (image_with (pefile_codeview rsds_header))) []
         <> Return info).
Proof.
  apply (extract_empty_filename
           (parsed_as (image_with (pefile_codeview rsds_header))) []
           (image_with (pefile_codeview rsds_header)) rsds_header);
    reflexivity.
Defined.

(** ** [download_pdb] *)

Lemma endswith_snoc (p : str) (c : char) : endswith (p ++ [c]) c = true.
Proof.
  induction p as [|y t IH]; [apply N.eqb_refl|].
  cbn [app endswith]. rewrite IH.
  destruct (t ++ [c]) eqn:E; [destruct t; discriminate | reflexivity].
Qed.

Lemma endswith_true (s : str) (c : char) :
  endswith s c = true -> exists p, s = p ++ [c].
Proof.
  induction s as [|y t IH]; [discriminate|].
  destruct t as [|z t'].
  - cbn [endswith]. intros H. apply N.eqb_eq in H. subst. exists []. reflexivity.
  - intros H. destruct (IH H) as (p & Hp). exists (y :: p). rewrite Hp. reflexivity.
Qed.

Lemma endswith_false (s : str) (c : char) :
  endswith s c = false -> ~ exists p, s = p ++ [c].
Proof.
  intros H (p & ->). rewrite endswith_snoc in H. discriminate.
Qed.

(** The store URL with one trailing slash removed, if it has one. *)
Lemma strip_slash_spec (s0 : str) :
  strip_one_slash s0
    (if endswith s0 (chr "/") then drop_last s0 else s0).
Proof.
  unfold strip_one_slash.
  destruct (endswith s0 (chr "/")) eqn:E.
  - left. destruct (endswith_true _ _ E) as (p & ->).
    rewrite drop_last_snoc. reflexivity.
  - right. split; [reflexivity | apply endswith_false; exact E].
Qed.

(** C6. For every identity and every optional store URL, download_pdb
    sends exactly one request, to the URL store/base/signature/base,
    where base is the basename of the identity, the store is
    https://msdl.microsoft.com/download/symbols when none is supplied,
    and one trailing '/' of the store URL is removed before the path is
    appended; the identity of the specification's example gives the URL
    of the example, and a store with a trailing slash gives no double
    slash. *)
Theorem download_request_url :
  (forall (server : str -> Response) (pdbinfo : PdbInfo)
          (pdbstore : option str) (sent : list str),
      exists store : str,
        strip_one_slash
          (match pdbstore with None => default_pdbstore | Some s => s end)
          store
        /\ snd (download_pdb server pdbinfo pdbstore sent)
           = sent ++ [store ++ lit "/" ++ basename pdbinfo ++ lit "/"
                      ++ pdb_signature pdbinfo ++ lit "/" ++ basename pdbinfo])
  /\ default_pdbstore = lit "https://msdl.microsoft.com/download/symbols"
  /\ (forall server : str -> Response,
         snd (download_pdb server
                {| pdb_signature := lit "ABCDEF0123456789ABCDEF0123456789A";
                   pdbfilename := lit "x\vcruntime140_1.amd64.pdb" |}
                None [])
         = [lit "https://msdl.microsoft.com/download/symbols/vcruntime140_1.amd64.pdb/ABCDEF0123456789ABCDEF0123456789A/vcruntime140_1.amd64.pdb"]
         /\ snd (download_pdb server
                   {| pdb_signature := lit "ABCDEF0123456789ABCDEF0123456789A";
                      pdbfilename := lit "x\vcruntime140_1.amd64.pdb" |}
                   (Some (lit "http://symbols.example/store/")) [])
            = [lit "http://symbols.example/store/vcruntime140_1.amd64.pdb/ABCDEF0123456789ABCDEF0123456789A/vcruntime140_1.amd64.pdb"]).
Proof.
  split; [|split].
  - intros server pdbinfo pdbstore sent.
    set (s0 := match pdbstore with None => default_pdbstore | Some s => s end).
    exists (if endswith s0 (chr "/") then drop_last s0 else s0).
    split; [apply strip_slash_spec | reflexivity].
  - reflexivity.
  - intros server. split; reflexivity.
Qed.

(** C7. For every response of the store to the request, download_pdb
    returns the response body unchanged on status 200, fails with
    [PdbNotFoundError] on status 404, and fails with
    [UnexpectedReturnStatusError] carrying the status on any other
    status; status 500 gives [UnexpectedReturnStatusError 500]. *)
Theorem download_status_mapping :
  (forall (server : str -> Response) (pdbinfo : PdbInfo)
          (pdbstore : option str) (sent : list str),
      exists url : str,
        snd (download_pdb server pdbinfo pdbstore sent) = sent ++ [url]
        /\ (status (server url) = 200%Z ->
            fst (download_pdb server pdbinfo pdbstore sent)
            = Return (body (server url)))
        /\ (status (server url) = 404%Z ->
            fst (download_pdb server pdbinfo pdbstore sent)
            = Raise PdbNotFoundError)
        /\ (status (server url) <> 200%Z -> status (server url) <> 404%Z ->
            fst (download_pdb server pdbinfo pdbstore sent)
            = Raise (UnexpectedReturnStatusError (status (server url)))))
  /\ (forall (pdbinfo : PdbInfo) (pdbstore : option str) (sent : list str)
             (content : bytes),
         fst (download_pdb (fun _ => {| status := 500; body := content |})
                pdbinfo pdbstore sent)
         = Raise (UnexpectedReturnStatusError 500)
         /\ fst (download_pdb (fun _ => {| status := 404; body := content |})
                   pdbinfo pdbstore sent)
            = Raise PdbNotFoundError
         /\ fst (download_pdb (fun _ => {| status := 200; body := content |})
                   pdbinfo pdbstore sent)
            = Return content).
Proof.
  split.
  - intros server pdbinfo pdbstore sent.
    unfold download_pdb, session_get. cbv zeta. cbn [fst snd].
    eexists. split; [reflexivity|]. cbn beta.
    match goal with |- context [status (server ?u)] => set (r := server u) end.
    split; [|split].
    + intros ->. reflexivity.
    + intros ->. reflexivity.
    + intros H200 H404.
      destruct (Z.eqb_spec (status r) 404); [contradiction|].
      destruct (Z.eqb_spec (status r) 200); [contradiction|].
      reflexivity.
  - intros pdbinfo pdbstore sent content. repeat split.
Qed.

(** * Further properties *)

(** ** [basename] once more *)

(** X1. The basename is a suffix of the file name, holds no separator, and
    is its own basename. *)
Theorem basename_separator_free_suffix :
  forall info : PdbInfo,
    no_sep (basename info)
    /\ (exists pre, pdbfilename info = pre ++ basename info)
    /\ (forall sg,
           basename {| pdb_signature := sg; pdbfilename := basename info |}
           = basename info).
Proof.
  intros [sg name].
  destruct (last_sep_split name) as [Hn | (pre & c & post & -> & Hc & Hpost)].
  - pose proof (proj1 (Forall_forall _ _) Hn) as Hn'.
    rewrite (basename_no_sep sg name Hn').
    split; [assumption|]. split; [exists []; reflexivity|].
    intros sg'. apply basename_no_sep. assumption.
  - pose proof (proj1 (Forall_forall _ _) Hpost) as Hpost'.
    rewrite (basename_last_sep sg pre post c Hc Hpost').
    split; [assumption|]. split.
    + exists (pre ++ [c]). cbn [pdbfilename]. rewrite <- app_assoc. reflexivity.
    + intros sg'. apply basename_no_sep. assumption.
Qed.

(** ** The signature as a key *)

Lemma app_inj_length {A : Type} (a a' b b' : list A) :
  List.length a = List.length a' -> a ++ b = a' ++ b' -> a = a' /\ b = b'.
Proof.
  revert a'. induction a as [|x a IH]; intros [|x' a'] Hlen H;
    try discriminate; [split; [reflexivity | exact H]|].
  cbn [app] in H. inversion H; subst.
  destruct (IH a') as [-> ->]; [simpl in Hlen; lia | assumption |].
  split; reflexivity.
Qed.

Lemma map_to_N_inj (x y : bytes) :
  List.map Byte.to_N x = List.map Byte.to_N y -> x = y.
Proof.
  revert y. induction x as [|a x IH]; intros [|c y] H; try discriminate;
    [reflexivity|].
  cbn [List.map] in H. inversion H as [[Ha Hx]].
  f_equal; [|apply IH; assumption].
  pose proof (Byte.of_to_N a) as E1. pose proof (Byte.of_to_N c) as E2.
  rewrite Ha in E1. congruence.
Qed.

Lemma format_0X_inj (w : nat) (n m : N) :
  (n < pow16 (S w))%N -> (m < pow16 (S w))%N ->
  forall t t' : str,
    format_0X (S w) n ++ t = format_0X (S w) m ++ t' -> n = m /\ t = t'.
Proof.
  intros Hn Hm t t' H.
  destruct (format_0X_spec w n Hn) as [Ln Vn].
  destruct (format_0X_spec w m Hm) as [Lm Vm].
  destruct (app_inj_length _ _ _ _ (eq_trans Ln (eq_sym Lm)) H) as [E Ht].
  split; [|exact Ht]. rewrite E in Vn. congruence.
Qed.

(** X2. Two entries with the same signature have the same identifier and
    the same age: the signature is a faithful key of the build. *)
Theorem rsds_signature_injective :
  forall e1 e2 : CV_INFO_PDB70,
    rsds_fields_in_range e1 ->
    rsds_fields_in_range e2 ->
    rsds_signature e1 = rsds_signature e2 ->
    Signature_Data1 e1 = Signature_Data1 e2
    /\ Signature_Data2 e1 = Signature_Data2 e2
    /\ Signature_Data3 e1 = Signature_Data3 e2
    /\ Signature_Data4 e1 = Signature_Data4 e2
    /\ Signature_Data5 e1 = Signature_Data5 e2
    /\ Signature_Data6 e1 = Signature_Data6 e2
    /\ Age e1 = Age e2.
Proof.
  intros e1 e2 (A1 & A2 & A3 & A4 & A5 & A6) (B1 & B2 & B3 & B4 & B5 & B6) H.
  unfold rsds_signature, format_signature in H.
  apply (format_0X_inj 7 _ _ A1 B1) in H. destruct H as [E1 H].
  apply (format_0X_inj 3 _ _ A2 B2) in H. destruct H as [E2 H].
  apply (format_0X_inj 3 _ _ A3 B3) in H. destruct H as [E3 H].
  apply (format_0X_inj 1 _ _ A4 B4) in H. destruct H as [E4 H].
  apply (format_0X_inj 1 _ _ A5 B5) in H. destruct H as [E5 H].
  destruct (upper_bytes_hex_spec (Signature_Data6 e1)) as [V6 L6].
  destruct (upper_bytes_hex_spec (Signature_Data6 e2)) as [V6' L6'].
  apply app_inj_length in H; [|rewrite L6, L6', A6, B6; reflexivity].
  destruct H as [E6 Ea].
  repeat split; try assumption.
  - apply map_to_N_inj. rewrite E6 in V6. congruence.
  - pose proof (proj1 (format_X_spec (Age e1))) as Va.
    pose proof (proj1 (format_X_spec (Age e2))) as Va'.
    rewrite Ea in Va. congruence.
Qed.

Lemma rsds_signature_injective_witness :
  Signature_Data1 spec_entry = Signature_Data1 entry_no_filename
  /\ Signature_Data2 spec_entry = Signature_Data2 entry_no_filename
  /\ Signature_Data3 spec_entry = Signature_Data3 entry_no_filename
  /\ Signature_Data4 spec_entry = Signature_Data4 entry_no_filename
  /\ Signature_Data5 spec_entry = Signature_Data5 entry_no_filename
  /\ Signature_Data6 spec_entry = Signature_Data6 entry_no_filename
  /\ Age spec_entry = Age entry_no_filename.
Proof.
  apply (rsds_signature_injective spec_entry entry_no_filename).
  - unfold rsds_fields_in_range. simpl. repeat split; lia.
  - unfold rsds_fields_in_range. simpl. repeat split; lia.
  - reflexivity.
Defined.

Lemma hex_value_acc_digits (s : str) :
  forall a v, hex_value_acc a s = Some v -> Forall is_hex_digit s.
Proof.
  induction s as [|c t IH]; intros a v H; [constructor|].
  cbn [hex_value_acc] in H.
  destruct (hex_digit_value c) as [d|] eqn:E; [|discriminate].
  constructor; [unfold is_hex_digit; rewrite E; discriminate | eapply IH; eassumption].
Qed.

Lemma format_X_digits (n : N) : Forall is_hex_digit (format_X n).
Proof.
  apply (hex_value_acc_digits (format_X n) 0 n). apply format_X_spec.
Qed.

Lemma format_0X_digits (w : nat) (n : N) : Forall is_hex_digit (format_0X w n).
Proof.
  unfold format_0X. apply Forall_app. split; [|apply format_X_digits].
  apply Forall_forall. intros c Hc. apply repeat_spec in Hc. subst.
  unfold is_hex_digit. discriminate.
Qed.

Lemma upper_bytes_hex_digits (bs : bytes) :
  Forall is_hex_digit (upper (bytes_hex bs)).
Proof.
  induction bs as [|x bs IH]; [constructor|].
  unfold upper, bytes_hex in *. cbn [flat_map List.map app].
  pose proof (Byte.to_N_bounded x) as Hb.
  destruct (div16 (Byte.to_N x)) as (q & r & -> & -> & Hx & Hr).
  assert (Hq : (q < 16)%N) by lia.
  rewrite !upper_hex_digit_lower by assumption.
  constructor; [|constructor; [|exact IH]];
    unfold is_hex_digit; rewrite hex_digit_value_upper by assumption;
    discriminate.
Qed.

Lemma format_X_nonempty (n : N) : (1 <= List.length (format_X n))%nat.
Proof.
  unfold format_X.
  destruct (hex_digits_spec (N.to_nat (N.log2 n)) n [] (N.to_nat (N.log2 n))
              (format_X_fuel n) (format_X_fuel n))
    as (ds & -> & Hlen & _).
  rewrite app_nil_r. lia.
Qed.

(** X3. The signature of an entry whose fields are in range (the age being
    a 32-bit number) is made of upper-case hexadecimal digits only, and
    is 33 to 40 characters long. *)
Theorem rsds_signature_alphabet_and_length :
  forall e : CV_INFO_PDB70,
    rsds_fields_in_range e ->
    (Age e < 2 ^ 32)%N ->
    Forall is_hex_digit (rsds_signature e)
    /\ (33 <= List.length (rsds_signature e) <= 40)%nat.
Proof.
  intros e (A1 & A2 & A3 & A4 & A5 & A6) Hage. split.
  - unfold rsds_signature, format_signature.
    do 5 (apply Forall_app; split; [apply format_0X_digits|]).
    apply Forall_app; split;
      [apply upper_bytes_hex_digits | apply format_X_digits].
  - unfold rsds_signature, format_signature. rewrite !length_app.
    rewrite (proj1 (format_0X_spec 7 _ A1)), (proj1 (format_0X_spec 3 _ A2)),
      (proj1 (format_0X_spec 3 _ A3)), (proj1 (format_0X_spec 1 _ A4)),
      (proj1 (format_0X_spec 1 _ A5)).
    rewrite (proj2 (upper_bytes_hex_spec _)), A6.
    pose proof (format_X_nonempty (Age e)) as Hlo.
    pose proof (proj2 (proj2 (format_X_spec (Age e))) 7%nat Hage) as Hhi.
    lia.
Qed.

Lemma rsds_signature_alphabet_and_length_witness :
  Forall is_hex_digit (rsds_signature spec_entry)
  /\ (33 <= List.length (rsds_signature spec_entry) <= 40)%nat.
Proof.
  apply (rsds_signature_alphabet_and_length spec_entry).
  - unfold rsds_fields_in_range. simpl. repeat split; lia.
  - simpl. lia.
Defined.

(** ** What [decode] accepts *)

Local Open Scope N_scope.

Lemma second3_range_surrogates (n0 n1 : N) :
  in_range (fst (second3 n0)) (snd (second3 n0)) n1 = true ->
  n0 = 237 -> n1 <= 159.
Proof.
  intros H ->. apply in_range_spec in H. simpl in H. lia.
Qed.

Lemma second4_range_top (n0 n1 : N) :
  in_range (fst (second4 n0)) (snd (second4 n0)) n1 = true ->
  n0 = 244 -> n1 <= 143.
Proof.
  intros H ->. apply in_range_spec in H. simpl in H. lia.
Qed.

(** Whatever [decode] accepts is well-formed UTF-8. *)
Lemma decode_utf8_upto (n : nat) :
  forall (bs : bytes) (s : str),
    (List.length bs <= n)%nat -> decode bs = Some s -> utf8 bs s.
Proof.
  induction n as [|n IH]; intros bs s Hlen Hd.
  - destruct bs; [|simpl in Hlen; lia]. inversion Hd. constructor.
  - destruct bs as [|b0 t0]; [inversion Hd; constructor|].
    rewrite decode_cons in Hd. cbv zeta in Hd. cbn [List.length] in Hlen.
    destruct (N.ltb_spec (Byte.to_N b0) 128) as [Ha|Ha].
    { apply cons_opt_Some in Hd. destruct Hd as (s' & Hs' & ->).
      apply utf8_1; [assumption|]. apply IH; [lia | assumption]. }
    destruct (N.ltb_spec (Byte.to_N b0) 194) as [Hb|Hb]; [discriminate|].
    destruct (N.ltb_spec (Byte.to_N b0) 224) as [Hc|Hc].
    { destruct t0 as [|b1 t1]; [discriminate|].
      destruct (cont (Byte.to_N b1)) eqn:E1; [|discriminate].
      apply cont_range in E1.
      apply cons_opt_Some in Hd. destruct Hd as (s' & Hs' & ->).
      cbn [List.length] in Hlen.
      apply utf8_2; [lia | lia |]. apply IH; [lia | assumption]. }
    destruct (N.ltb_spec (Byte.to_N b0) 240) as [Hd3|Hd3].
    { destruct t0 as [|b1 [|b2 t2]]; try discriminate.
      destruct (in_range _ _ (Byte.to_N b1)) eqn:E1; [|discriminate].
      destruct (cont (Byte.to_N b2)) eqn:E2; [|discriminate].
      pose proof (second3_range_surrogates _ _ E1) as Hsur.
      apply second3_range in E1; [|assumption]. apply cont_range in E2.
      cbn [andb] in Hd.
      apply cons_opt_Some in Hd. destruct Hd as (s' & Hs' & ->).
      cbn [List.length] in Hlen.
      apply utf8_3; try tauto; try lia. apply IH; [lia | assumption]. }
    destruct (N.ltb_spec (Byte.to_N b0) 245) as [Hd4|Hd4]; [|discriminate].
    destruct t0 as [|b1 [|b2 [|b3 t3]]]; try discriminate.
    destruct (in_range _ _ (Byte.to_N b1)) eqn:E1; [|discriminate].
    destruct (cont (Byte.to_N b2)) eqn:E2; [|discriminate].
    destruct (cont (Byte.to_N b3)) eqn:E3; [|discriminate].
    pose proof (second4_range_top _ _ E1) as Htop.
    apply second4_range in E1; [|lia].
    apply cont_range in E2. apply cont_range in E3.
    cbn [andb] in Hd.
    apply cons_opt_Some in Hd. destruct Hd as (s' & Hs' & ->).
    cbn [List.length] in Hlen.
    apply utf8_4; try tauto; try lia. apply IH; [lia | assumption].
Qed.

Lemma decode_utf8 (bs : bytes) (s : str) : decode bs = Some s -> utf8 bs s.
Proof. apply (decode_utf8_upto (List.length bs)). apply Nat.le_refl. Qed.

Lemma utf8_scalar (bs : bytes) (s : str) : utf8 bs s -> Forall is_scalar s.
Proof.
  induction 1 as [ | b0 bs s H0 _ IH | b0 b1 bs s H0 H1 _ IH
                 | b0 b1 b2 bs s H0 H1 Hlo Hhi H2 _ IH
                 | b0 b1 b2 b3 bs s H0 H1 Hlo Hhi H2 H3 _ IH ];
    [constructor | | | | ]; (constructor; [|exact IH]); unfold is_scalar.
  - lia.
  - lia.
  - destruct (N.eq_dec (Byte.to_N b0) 237) as [E|E].
    + specialize (Hhi E). lia.
    + destruct (N.lt_ge_cases (Byte.to_N b0) 237); lia.
  - destruct (N.eq_dec (Byte.to_N b0) 244) as [E|E].
    + specialize (Hhi E). lia.
    + destruct (N.eq_dec (Byte.to_N b0) 240) as [E'|E'].
      * specialize (Hlo E'). lia.
      * lia.
Qed.

Lemma utf8_bytes (bs : bytes) (s : str) :
  utf8 bs s -> Forall (fun x => ~ never_in_utf8 x) bs.
Proof.
  induction 1; repeat constructor; try assumption;
    unfold never_in_utf8; lia.
Qed.

Local Close Scope N_scope.

(** ** What [extract_pdb_info] returns *)

Lemma last_byte_Some (s : bytes) (x : byte) :
  last_byte s = Some x -> exists init, s = init ++ [x].
Proof.
  intros H. destruct s as [|y t]; [discriminate|].
  assert (Hne : y :: t <> []) by discriminate.
  destruct (exists_last Hne) as (init & z & E). rewrite E in *.
  rewrite last_byte_snoc in H. inversion H; subst. eauto.
Qed.

(** A returned identity comes from a parsed image whose first entry is
    a [CV_INFO_PDB70] structure tagged RSDS with a non-empty file
    name. *)
Lemma extract_Return_inv (pefile_PE : bytes -> result PE) (pe_data : bytes)
      (info : PdbInfo) :
  extract_pdb_info pefile_PE pe_data = Return info ->
  exists pe e init x,
    pefile_PE pe_data = Return pe
    /\ first_entry pe = Some (PDB70 e)
    /\ CvSignature e = blit "RSDS"
    /\ PdbFileName e = Some (init ++ [x])
    /\ decode (if Byte.eqb x x00 then init else init ++ [x])
       = Some (pdbfilename info)
    /\ pdb_signature info = rsds_signature e.
Proof.
  intros Hret.
  destruct (pefile_PE pe_data) as [pe|err] eqn:Hparse;
    [|unfold extract_pdb_info in Hret; rewrite Hparse in Hret; discriminate].
  destruct (first_entry pe) as [o|] eqn:Hfirst.
  - destruct (extract_Return_rsds pefile_PE pe_data pe o Hparse Hfirst info Hret)
      as (e & -> & Htag).
    rewrite (extract_rsds pefile_PE pe_data pe (PDB70 e) Hparse Hfirst e
               eq_refl Htag) in Hret.
    destruct (PdbFileName e) as [name|] eqn:Hname; [|discriminate].
    destruct (last_byte name) as [x|] eqn:Hlast; [|discriminate].
    destruct (last_byte_Some _ _ Hlast) as (init & Hfn). subst name.
    rewrite drop_last_snoc in Hret.
    destruct (decode (if Byte.eqb x x00 then init else init ++ [x]))
      as [text|] eqn:Hdec; [|discriminate].
    inversion Hret; subst info.
    exists pe, e, init, x. repeat split; assumption.
  - unfold extract_pdb_info in Hret. rewrite Hparse in Hret. cbn [bind] in Hret.
    unfold first_entry in Hfirst.
    destruct (DIRECTORY_ENTRY_DEBUG pe) as [[|d ds]|]; discriminate.
Qed.

(** X4. Every file name that extract_pdb_info returns is made of Unicode
    scalar values: no surrogate and nothing above U+10FFFF. *)
Theorem extract_filename_scalar_values :
  forall (pefile_PE : bytes -> result PE) (pe_data : bytes) (info : PdbInfo),
    extract_pdb_info pefile_PE pe_data = Return info ->
    Forall is_scalar (pdbfilename info).
Proof.
  intros pefile_PE pe_data info Hret.
  destruct (extract_Return_inv pefile_PE pe_data info Hret)
    as (pe & e & init & x & _ & _ & _ & _ & Hdec & _).
  eapply utf8_scalar. apply decode_utf8. exact Hdec.
Qed.

Lemma extract_filename_scalar_values_witness :
  Forall is_scalar (lit "C:\sym\vcruntime140_1.amd64.pdb").
Proof.
  apply (extract_filename_scalar_values
           (parsed_as (image_of spec_entry)) []
           {| pdb_signature := rsds_signature spec_entry;
              pdbfilename := lit "C:\sym\vcruntime140_1.amd64.pdb" |}).
  vm_compute. reflexivity.
Defined.

(** X5. For an RSDS entry whose non-empty file name is pure ASCII,
    extract_pdb_info returns the identity whose file name is the bytes
    themselves, without the last one if it is null. *)
Theorem extract_ascii_filename :
  forall (pefile_PE : bytes -> result PE) (pe_data : bytes) (pe : PE)
         (e : CV_INFO_PDB70) (init : bytes) (x : byte),
    pefile_PE pe_data = Return pe ->
    first_entry pe = Some (PDB70 e) ->
    CvSignature e = blit "RSDS" ->
    PdbFileName e = Some (init ++ [x]) ->
    Forall (fun y => (Byte.to_N y < 128)%N) (init ++ [x]) ->
    extract_pdb_info pefile_PE pe_data
    = Return {| pdb_signature := rsds_signature e;
                pdbfilename :=
                  List.map Byte.to_N
                    (if Byte.eqb x x00 then init else init ++ [x]) |}.
Proof.
  intros pefile_PE pe_data pe e init x Hparse Hfirst Htag Hfn Hascii.
  rewrite (extract_rsds_snoc pefile_PE pe_data pe (PDB70 e) Hparse Hfirst
             e init x eq_refl Htag Hfn).
  rewrite decode_ascii; [reflexivity|].
  destruct (Byte.eqb x x00); [|exact Hascii].
  apply Forall_app in Hascii. tauto.
Qed.

Lemma extract_ascii_filename_witness :
  extract_pdb_info (parsed_as (image_of spec_entry)) []
  = Return {| pdb_signature := rsds_signature spec_entry;
              pdbfilename :=
                List.map Byte.to_N (blit "C:\sym\vcruntime140_1.amd64.pdb") |}.
Proof.
  apply (extract_ascii_filename
           (parsed_as (image_of spec_entry)) [] (image_of spec_entry) spec_entry
           (blit "C:\sym\vcruntime140_1.amd64.pdb") x00);
    try reflexivity.
  repeat constructor.
Defined.

(** X6. For an RSDS entry whose file name holds, before its last byte, a
    byte that occurs in no UTF-8 text (C0, C1, F5 and above),
    extract_pdb_info raises UnicodeDecodeError, which is no
    ExtractPdbException. *)
Theorem extract_undecodable_filename :
  forall (pefile_PE : bytes -> result PE) (pe_data : bytes) (pe : PE)
         (e : CV_INFO_PDB70) (init : bytes) (x y : byte),
    pefile_PE pe_data = Return pe ->
    first_entry pe = Some (PDB70 e) ->
    CvSignature e = blit "RSDS" ->
    PdbFileName e = Some (init ++ [x]) ->
    In y init ->
    never_in_utf8 y ->
    extract_pdb_info pefile_PE pe_data = Raise UnicodeDecodeError
    /\ is_ExtractPdbException UnicodeDecodeError = false.
Proof.
  intros pefile_PE pe_data pe e init x y Hparse Hfirst Htag Hfn Hin Hbad.
  split; [|reflexivity].
  rewrite (extract_rsds_snoc pefile_PE pe_data pe (PDB70 e) Hparse Hfirst
             e init x eq_refl Htag Hfn).
  destruct (decode (if Byte.eqb x x00 then init else init ++ [x]))
    as [name|] eqn:Hdec; [|reflexivity].
  exfalso. apply decode_utf8, utf8_bytes in Hdec.
  assert (Hin' : In y (if Byte.eqb x x00 then init else init ++ [x])).
  { destruct (Byte.eqb x x00); [assumption | apply in_or_app; left; assumption]. }
  exact (proj1 (Forall_forall _ _) Hdec y Hin' Hbad).
Qed.

Lemma extract_undecodable_filename_witness :
  extract_pdb_info
    (parsed_as (image_of (with_filename (Some [xff; x2e; x70; x64; x62; x00])
                                        spec_entry)))
    []
  = Raise UnicodeDecodeError
  /\ is_ExtractPdbException UnicodeDecodeError = false.
Proof.
  apply (extract_undecodable_filename
           (parsed_as (image_of (with_filename
                                   (Some [xff; x2e; x70; x64; x62; x00])
                                   spec_entry)))
           []
           (image_of (with_filename (Some [xff; x2e; x70; x64; x62; x00])
                                    spec_entry))
           (with_filename (Some [xff; x2e; x70; x64; x62; x00]) spec_entry)
           [xff; x2e; x70; x64; x62] x00 xff);
    try reflexivity.
  - left. reflexivity.
  - right. right. vm_compute. discriminate.
Defined.

(** ** [download_pdb] once more *)

(** X7. Only one trailing slash of the store URL is removed: a store URL
    that ends in two slashes gives a request URL with a double slash. *)
Theorem download_strips_one_slash_only :
  forall (server : str -> Response) (pdbinfo : PdbInfo) (p : str)
         (sent : list str),
    snd (download_pdb server pdbinfo (Some (p ++ lit "//")) sent)
    = sent ++ [p ++ lit "//" ++ basename pdbinfo ++ lit "/"
               ++ pdb_signature pdbinfo ++ lit "/" ++ basename pdbinfo].
Proof.
  intros server pdbinfo p sent.
  unfold download_pdb, session_get. cbv beta iota zeta. cbn [snd].
  assert (Hsplit : p ++ lit "//" = (p ++ lit "/") ++ [chr "/"])
    by (rewrite <- app_assoc; reflexivity).
  assert (E : endswith (p ++ lit "//") (chr "/") = true)
    by (rewrite Hsplit; apply endswith_snoc).
  assert (D : drop_last (p ++ lit "//") = p ++ lit "/")
    by (rewrite Hsplit; apply drop_last_snoc).
  rewrite E, D, <- app_assoc. reflexivity.
Qed.

(** The outcome and the request of [download_pdb], in one equation. *)
Lemma download_pdb_shape (server : str -> Response) (pdbinfo : PdbInfo)
      (pdbstore : option str) (sent : list str) :
  exists url,
    download_pdb server pdbinfo pdbstore sent
    = (if (status (server url) =? 404)%Z then Raise PdbNotFoundError
       else if (status (server url) =? 200)%Z then Return (body (server url))
       else Raise (UnexpectedReturnStatusError (status (server url))),
       sent ++ [url]).
Proof. eexists. reflexivity. Qed.

(** ** [main] *)

Section MainFacts.

Variable pefile_PE : bytes -> result PE.
Variable server : str -> Response.
Variable FS : Type.
Variable read_file : FS -> str -> bytes + os_error.
Variable write_file : FS -> str -> bytes -> FS * option os_error.
Variable os_path_join : str -> str -> str.

Local Abbreviation run :=
  (main pefile_PE server FS read_file write_file os_path_join).

(** [main] up to the end of the extraction, when it fails. *)
Lemma main_extract_raises (args : Args) (w : World FS) (pe_data : bytes)
      (e : exn) :
  read_file (files w) (file args) = inl pe_data ->
  extract_pdb_info pefile_PE pe_data = Raise e ->
  run args w
  = match e with
    | NoDebugEntryException =>
        (Returned, print (lit "PE file does not contain a debug entry.") w)
    | UnsupportedDebugEntryTypeError tag =>
        (Returned,
         print (lit "PE file contains an unssupported debug entry type: "
                ++ bytes_repr tag) w)
    | _ => (Uncaught e, w)
    end.
Proof.
  intros Hread Hext. unfold main. rewrite Hread, Hext.
  destruct e; reflexivity.
Qed.

(** [main] from the extraction on, when it returns an identity. *)
Lemma main_extract_returns (args : Args) (w : World FS) (pe_data : bytes)
      (info : PdbInfo) :
  read_file (files w) (file args) = inl pe_data ->
  extract_pdb_info pefile_PE pe_data = Return info ->
  exists url,
    download_pdb server info (store args) (requests w)
    = (if (status (server url) =? 404)%Z then Raise PdbNotFoundError
       else if (status (server url) =? 200)%Z then Return (body (server url))
       else Raise (UnexpectedReturnStatusError (status (server url))),
       requests w ++ [url])
    /\ run args w
       = let printed :=
           {| files := files w; stdout := stdout w ++ identity_lines info;
              requests := requests w |} in
         if no_download args then (Returned, printed)
         else
           let asked := set_requests (requests w ++ [url]) printed in
           if (status (server url) =? 404)%Z
           then (Returned,
                 print (lit "PDB store returned 404. PDB not found.") asked)
           else if (status (server url) =? 200)%Z
           then
             let name :=
               match given (output args) with
               | Some n => n
               | None => basename info
               end in
             let path :=
               match given (output_dir args) with
               | Some d => os_path_join d name
               | None => name
               end in
             match write_file (files w) path (body (server url)) with
             | (fs, Some err) => (UncaughtOS err, set_files fs asked)
             | (fs, None) =>
                 (Returned, print (lit "PDB written to " ++ path) (set_files fs asked))
             end
           else (Returned,
                 print (lit "PDB store returned unexepected status code: "
                        ++ str_of_int (status (server url))) asked).
Proof.
  intros Hread Hext.
  destruct (download_pdb_shape server info (store args) (requests w))
    as (url & Hd).
  exists url. split; [exact Hd|].
  unfold main. rewrite Hread, Hext. cbv zeta.
  unfold identity_lines, print, set_requests, set_files.
  cbn [files stdout requests].
  destruct (no_download args); cbn [negb];
    [rewrite <- ?app_assoc; reflexivity|].
  rewrite Hd.
  destruct (Z.eqb_spec (status (server url)) 404);
    [rewrite <- ?app_assoc; reflexivity|].
  destruct (Z.eqb_spec (status (server url)) 200);
    [|rewrite <- ?app_assoc; reflexivity].
  destruct (output args) as [[|c t]|], (output_dir args) as [[|c' t']|];
    cbn [given];
    match goal with
    | |- context [write_file ?f ?q ?b] => destruct (write_file f q b) as [fs [err|]]
    end; rewrite <- ?app_assoc; reflexivity.
Qed.

(** X9. When the extraction fails, main sends no request and writes no
    file; a failure that is an ExtractPdbException is reported on one
    line and main returns, any other exception leaves main with
    nothing printed. *)
Theorem main_extraction_failure :
  forall (args : Args) (w : World FS) (pe_data : bytes) (e : exn),
    read_file (files w) (file args) = inl pe_data ->
    extract_pdb_info pefile_PE pe_data = Raise e ->
    requests (snd (run args w)) = requests w
    /\ files (snd (run args w)) = files w
    /\ (is_ExtractPdbException e = true ->
        fst (run args w) = Returned
        /\ exists line, stdout (snd (run args w)) = stdout w ++ [line])
    /\ (is_ExtractPdbException e = false -> run args w = (Uncaught e, w)).
Proof.
  intros args w pe_data e Hread Hext.
  rewrite (main_extract_raises args w pe_data e Hread Hext).
  destruct e; cbn [is_ExtractPdbException fst snd print requests files stdout];
    repeat split; try discriminate; eauto.
Qed.

(** X10. An image whose first debug entry pefile builds from CodeView
    data that do not begin with "RSDS" (the older NB10 records among
    them), or from an RSDS record that ends with its 24 header bytes,
    ends main with the uncaught AttributeError: nothing is printed,
    requested or written, and the message of lines 130-131 is not
    shown. *)
Theorem main_uncaught_attribute_error :
  forall (args : Args) (w : World FS) (pe_data : bytes) (pe : PE)
         (data : bytes),
    read_file (files w) (file args) = inl pe_data ->
    pefile_PE pe_data = Return pe ->
    first_entry pe = Some (pefile_codeview data) ->
    firstn 4 data <> blit "RSDS" \/ (List.length data <= 24)%nat ->
    run args w = (Uncaught AttributeError, w).
Proof.
  intros args w pe_data pe data Hread Hparse Hfirst H.
  apply (main_extract_raises args w pe_data AttributeError Hread).
  exact (extract_pefile_attribute_error pefile_PE pe_data pe data
           Hparse Hfirst H).
Qed.




(** X14. main leaves the file system as it is unless the input was read, the
    extraction returned an identity, the download was on and the store
    answered 200 to the single request. *)
Theorem main_writes_only_after_200 :
  forall (args : Args) (w : World FS),
    files (snd (run args w)) = files w
    \/ (no_download args = false
        /\ exists pe_data info url path,
             read_file (files w) (file args) = inl pe_data
             /\ extract_pdb_info pefile_PE pe_data = Return info
             /\ requests (snd (run args w)) = requests w ++ [url]
             /\ status (server url) = 200%Z
             /\ files (snd (run args w))
                = fst (write_file (files w) path (body (server url)))).
Proof.
  intros args w.
  destruct (read_file (files w) (file args)) as [pe_data|err] eqn:Hread;
    [|left; unfold main; rewrite Hread; destruct err; reflexivity].
  destruct (extract_pdb_info pefile_PE pe_data) as [info|e] eqn:Hext;
    [|left; rewrite (main_extract_raises args w pe_data e Hread Hext);
      destruct e; reflexivity].
  destruct (main_extract_returns args w pe_data info Hread Hext)
    as (url & _ & Hrun).
  rewrite Hrun. cbv zeta.
  unfold print, set_files, set_requests. cbn [files stdout requests].
  destruct (no_download args); [left; reflexivity|].
  destruct (Z.eqb_spec (status (server url)) 404); [left; reflexivity|].
  destruct (Z.eqb_spec (status (server url)) 200) as [H200|]; [|left; reflexivity].
  right. split; [reflexivity|].
  exists pe_data, info, url. eexists.
  split; [reflexivity|]. split; [exact Hext|].
  destruct (write_file _ _ _) as [fs [err|]] eqn:Hw; cbn [fst snd files requests];
    (split; [reflexivity|]); (split; [assumption|]);
    rewrite Hw; reflexivity.
Qed.

(** X15. Whatever happens, main sends at most one request and prints at most
    three lines, after those already there. *)
Theorem main_effects_bounded :
  forall (args : Args) (w : World FS),
    (requests (snd (run args w)) = requests w
     \/ exists url, requests (snd (run args w)) = requests w ++ [url])
    /\ exists lines,
         stdout (snd (run args w)) = stdout w ++ lines
         /\ (List.length lines <= 3)%nat.
Proof.
  intros args w.
  destruct (read_file (files w) (file args)) as [pe_data|err] eqn:Hread.
  2:{ assert (Hw : snd (run args w) = w)
        by (unfold main; rewrite Hread; destruct err; reflexivity).
      rewrite Hw. split; [left; reflexivity|].
      exists []. rewrite app_nil_r. split; [reflexivity | simpl; lia]. }
  destruct (extract_pdb_info pefile_PE pe_data) as [info|e] eqn:Hext.
  2:{ rewrite (main_extract_raises args w pe_data e Hread Hext).
      destruct e; cbn [snd print requests stdout];
        (split; [left; reflexivity|]);
        first [ exists []; rewrite app_nil_r; split; [reflexivity | simpl; lia]
              | eexists; split; [reflexivity | simpl; lia] ]. }
  destruct (main_extract_returns args w pe_data info Hread Hext)
    as (url & _ & Hrun).
  rewrite Hrun. cbv zeta.
  unfold print, set_files, set_requests, identity_lines.
  cbn [files stdout requests].
  destruct (no_download args).
  { split; [left; reflexivity|]. eexists. split; [reflexivity | simpl; lia]. }
  destruct (Z.eqb_spec (status (server url)) 404).
  { split; [right; exists url; reflexivity|].
    eexists. rewrite <- app_assoc. split; [reflexivity | simpl; lia]. }
  destruct (Z.eqb_spec (status (server url)) 200).
  2:{ split; [right; exists url; reflexivity|].
      eexists. rewrite <- app_assoc. split; [reflexivity | simpl; lia]. }
  destruct (write_file _ _ _) as [fs [err|]]; cbn [snd requests stdout];
    (split; [right; exists url; reflexivity|]).
  - eexists. split; [reflexivity | simpl; lia].
  - eexists. rewrite <- app_assoc. split; [reflexivity | simpl; lia].
Qed.

(** X16. When the input file cannot be read, main changes nothing: a missing
    file ends it with exit status 2 and a message that names the file,
    any other error leaves it uncaught. *)
Theorem main_unreadable_input :
  forall (args : Args) (w : World FS) (err : os_error),
    read_file (files w) (file args) = inr err ->
    snd (run args w) = w
    /\ (err = FileNotFoundError ->
        fst (run args w)
        = SystemExit 2 (lit "could not find file " ++ file args))
    /\ (err <> FileNotFoundError -> fst (run args w) = UncaughtOS err).
Proof.
  intros args w err Hread. unfold main. rewrite Hread.
  destruct err; repeat split; try reflexivity; try discriminate.
  intros H. contradiction H. reflexivity.
Qed.

(** X17. An empty --output or --output-dir counts as absent. *)
Theorem main_empty_options_ignored :
  forall (args : Args) (w : World FS),
    run (with_output (Some []) args) w = run (with_output None args) w
    /\ run (with_output_dir (Some []) args) w
       = run (with_output_dir None args) w.
Proof.
  intros args w. split; reflexivity.
Qed.

End MainFacts.

(** ** Runs of [main] on the sample data *)

Lemma main_extraction_failure_witness :
  fst (sample_main {| DIRECTORY_ENTRY_DEBUG := None |} 200 sample_args sample_world)
  = Returned
  /\ exists line,
       stdout (snd (sample_main {| DIRECTORY_ENTRY_DEBUG := None |} 200
                      sample_args sample_world))
       = stdout sample_world ++ [line].
Proof.
  destruct (main_extraction_failure
              (parsed_as {| DIRECTORY_ENTRY_DEBUG := None |})
              (server_status 200 [x4d; x53]) sample_fs
              sample_read sample_write sample_join
              sample_args sample_world [] NoDebugEntryException)
    as (_ & _ & H & _); [reflexivity | reflexivity |].
  apply H. reflexivity.
Defined.

Lemma main_uncaught_attribute_error_witness :
  sample_main (image_with (pefile_codeview nb10_data)) 200 sample_args
    sample_world
  = (Uncaught AttributeError, sample_world).
Proof.
  apply (main_uncaught_attribute_error
           (parsed_as (image_with (pefile_codeview nb10_data)))
           (server_status 200 [x4d; x53]) sample_fs
           sample_read sample_write sample_join
           sample_args sample_world []
           (image_with (pefile_codeview nb10_data)) nb10_data);
    [reflexivity | reflexivity | reflexivity |].
  left. discriminate.
Defined.




Lemma main_unreadable_input_witness :
  snd (sample_main (image_of spec_entry) 200
         sample_args_missing_file
         sample_world)
  = sample_world.
Proof.
  apply (main_unreadable_input
           (parsed_as (image_of spec_entry))
           (server_status 200 [x4d; x53]) sample_fs
           sample_read sample_write sample_join
           sample_args_missing_file
           sample_world FileNotFoundError).
  reflexivity.
Defined.
